(** * Weather Wizard: the forecast aggregation of [src/App.js]

    The component [WeatherApp] keeps four pieces of state ([city],
    [weather], [loading], [error]) and derives from them, on every render,
    the summary [weatherData], the list [getRainTimes ()], the flag
    [extremeWeather] and the capitalised description.  This development
    embeds those derivations and the input guard of [fetchWeather], and
    proves what the specification says about them.

    Layout: the language layer first (errors, numbers, arrays, strings,
    regular expressions, dates), then the data of the two API responses,
    then the functions of [App.js] under their own names, then the
    theorems. *)

From Stdlib Require Import ZArith NArith List Bool Ascii String Lia.
From Stdlib Require Import SpecFloat DecimalString.
Import ListNotations.

Set Implicit Arguments.

(* ================================================================== *)
(** ** Exceptions *)

(** The only exception the derivations can raise is the [TypeError] of a
    property read on [undefined] ([item.weather[0].main] when the array
    [weather] is empty). *)
Inductive JsError : Type :=
  | TypeError.

Inductive result (A : Type) : Type :=
  | Ok (a : A)
  | Throw (e : JsError).

Arguments Ok {A} a.
Arguments Throw {A} e.

Definition bind {A B : Type} (r : result A) (k : A -> result B) : result B :=
  match r with
  | Ok a => k a
  | Throw e => Throw e
  end.

Notation "x <- r ;; k" := (bind r (fun x => k))
  (at level 61, r at next level, right associativity).

(* ================================================================== *)
(** ** Numbers

    A JavaScript Number is an IEEE 754 binary64 value.  It is modelled by
    the Standard Library's [spec_float] at precision 53 and maximal
    exponent 1024, whose operations round to nearest, ties to even. *)
Module Num.

Definition prec : Z := 53.
Definition emax : Z := 1024.

Definition Number : Type := spec_float.

Definition nan : Number := S754_nan.
Definition infinity : Number := S754_infinity false.
Definition neg_infinity : Number := S754_infinity true.
Definition pos_zero : Number := S754_zero false.
Definition neg_zero : Number := S754_zero true.

(** The Number nearest to an integer, and the Number a decimal literal
    [m / 10^k] of a JSON document denotes when [m] and [10^k] are
    exact. *)
Definition ofZ (n : Z) : Number := binary_normalize prec emax n 0 false.
Definition ofNat (n : nat) : Number := ofZ (Z.of_nat n).

Definition add : Number -> Number -> Number := SFadd prec emax.
Definition div : Number -> Number -> Number := SFdiv prec emax.

Definition decimal (m : Z) (k : nat) : Number :=
  div (ofZ m) (ofZ (10 ^ Z.of_nat k)).

(** [<], [<=] and [===] on Numbers: false as soon as one side is NaN,
    and the two zeros are equal. *)
Definition ltb : Number -> Number -> bool := SFltb.
Definition leb : Number -> Number -> bool := SFleb.
Definition eqb : Number -> Number -> bool := SFeqb.

Definition isNaN (x : Number) : bool :=
  match x with
  | S754_nan => true
  | _ => false
  end.

Definition is_pos_zero (x : Number) : bool :=
  match x with
  | S754_zero false => true
  | _ => false
  end.

Definition is_neg_zero (x : Number) : bool :=
  match x with
  | S754_zero true => true
  | _ => false
  end.

(** ToBoolean on a Number: NaN, +0 and -0 are falsy. *)
Definition truthy (x : Number) : bool :=
  match x with
  | S754_nan | S754_zero _ => false
  | _ => true
  end.

(** [Math.min (...args)]: [lowest] starts at +Infinity; a NaN argument
    makes the result NaN; -0 is below +0. *)
Fixpoint min_loop (lowest : Number) (coerced : list Number) : Number :=
  match coerced with
  | [] => lowest
  | number :: rest =>
      if isNaN number then nan
      else
        let lowest1 :=
          if is_neg_zero number && is_pos_zero lowest then neg_zero
          else lowest in
        let lowest2 := if ltb number lowest1 then number else lowest1 in
        min_loop lowest2 rest
  end.

Definition Math_min (args : list Number) : Number := min_loop infinity args.

(** [Math.max (...args)]: [highest] starts at -Infinity; +0 is above -0. *)
Fixpoint max_loop (highest : Number) (coerced : list Number) : Number :=
  match coerced with
  | [] => highest
  | number :: rest =>
      if isNaN number then nan
      else
        let highest1 :=
          if is_pos_zero number && is_neg_zero highest then pos_zero
          else highest in
        let highest2 := if ltb highest1 number then number else highest1 in
        max_loop highest2 rest
  end.

Definition Math_max (args : list Number) : Number :=
  max_loop neg_infinity args.

End Num.

(* ================================================================== *)
(** ** Arrays

    The four [Array.prototype] methods the component calls, each as the
    index loop of the language definition: the callback is applied to the
    elements from index 0 upwards, and an exception of the callback ends
    the loop. *)
Module Arr.

Section Methods.
Variables A B : Type.

(** [arr.reduce (callback, initialValue)]. *)
Fixpoint reduce (callback : B -> A -> B) (accumulator : B) (arr : list A) : B :=
  match arr with
  | [] => accumulator
  | kValue :: rest => reduce callback (callback accumulator kValue) rest
  end.

(** [arr.filter (callback)]: [kept] is the array built so far, each
    selected element pushed at its end. *)
Fixpoint filter_loop (callback : A -> result bool) (kept : list A)
         (arr : list A) : result (list A) :=
  match arr with
  | [] => Ok kept
  | kValue :: rest =>
      selected <- callback kValue ;;
      filter_loop callback (if selected then kept ++ [kValue] else kept) rest
  end.

Definition filter (callback : A -> result bool) (arr : list A) : result (list A) :=
  filter_loop callback [] arr.

(** [arr.map (callback)]. *)
Fixpoint map_loop (callback : A -> result B) (mapped : list B)
         (arr : list A) : result (list B) :=
  match arr with
  | [] => Ok mapped
  | kValue :: rest =>
      mappedValue <- callback kValue ;;
      map_loop callback (mapped ++ [mappedValue]) rest
  end.

Definition map (callback : A -> result B) (arr : list A) : result (list B) :=
  map_loop callback [] arr.

(** [arr.some (callback)]: stops at the first element the callback
    accepts, without calling it on the later ones. *)
Fixpoint some (callback : A -> result bool) (arr : list A) : result bool :=
  match arr with
  | [] => Ok false
  | kValue :: rest =>
      testResult <- callback kValue ;;
      if testResult then Ok true else some callback rest
  end.

(** [arr[0]]: [undefined] on an empty array. *)
Definition at0 (arr : list A) : option A :=
  match arr with
  | [] => None
  | x :: _ => Some x
  end.

End Methods.

End Arr.

(* ================================================================== *)
(** ** Strings

    A string is a sequence of code units.  The model has the code units
    0 to 255; the API is queried without a language parameter and answers
    in English.  On this range [toLowerCase] and the white space of [trim]
    are those of the language.  [toUpperCase] is that of the language
    too; since it leaves the range (the sharp s, unit 223, becomes the two
    units of "SS", and the units 181 and 255 become the units 924 and 376),
    its result is a text of [wide] units. *)
Module Str.

Local Open Scope N_scope.

Definition lower_unit (c : ascii) : ascii :=
  let n := N_of_ascii c in
  if ((65 <=? n) && (n <=? 90))
     || ((192 <=? n) && (n <=? 222) && negb (n =? 215))
  then ascii_of_N (n + 32) else c.

(** A text whose units may lie above 255, by the numbers of its units. *)
Definition wide : Type := list N.

(** The upper-case form of one unit. *)
Definition upper_units (c : ascii) : wide :=
  let n := N_of_ascii c in
  if n =? 223 then [83; 83]
  else if n =? 181 then [924]
  else if n =? 255 then [376]
  else if ((97 <=? n) && (n <=? 122))
          || ((224 <=? n) && (n <=? 254) && negb (n =? 247))
  then [n - 32]
  else [n].

(** The canonical form of a unit under the flag [i] of a pattern without
    the flag [u]: the upper-case form when that is a single unit, unless
    the unit is above 127 and its upper-case form below 128. *)
Definition canonical_unit (ch : ascii) : N :=
  match upper_units ch with
  | [cu] => if (128 <=? N_of_ascii ch) && (cu <? 128) then N_of_ascii ch else cu
  | _ => N_of_ascii ch
  end.

(** TAB, LF, VT, FF, CR, SP and NBSP. *)
Definition is_whitespace (c : ascii) : bool :=
  let n := N_of_ascii c in
  ((9 <=? n) && (n <=? 13)) || (n =? 32) || (n =? 160).

Local Close Scope N_scope.
Local Open Scope string_scope.

Fixpoint toLowerCase (s : string) : string :=
  match s with
  | EmptyString => EmptyString
  | String c rest => String (lower_unit c) (toLowerCase rest)
  end.

(** A string as a text of wide units. *)
Fixpoint units (s : string) : wide :=
  match s with
  | EmptyString => []
  | String c rest => N_of_ascii c :: units rest
  end.

Fixpoint toUpperCase (s : string) : wide :=
  match s with
  | EmptyString => []
  | String c rest => (upper_units c ++ toUpperCase rest)%list
  end.

(** [s.startsWith (searchString)]. *)
Fixpoint startsWith (s searchString : string) {struct searchString} : bool :=
  match searchString with
  | EmptyString => true
  | String p searchRest =>
      match s with
      | EmptyString => false
      | String c rest => Ascii.eqb c p && startsWith rest searchRest
      end
  end.

(** [s.includes (searchString)]: the search string occurs at some
    position of [s], tried from position 0 upwards. *)
Fixpoint includes (s searchString : string) : bool :=
  startsWith s searchString
  || match s with
     | EmptyString => false
     | String _ rest => includes rest searchString
     end.

(** [s.charAt (pos)]: the empty string when [pos] is past the end. *)
Fixpoint charAt (s : string) (pos : nat) : string :=
  match s, pos with
  | EmptyString, _ => EmptyString
  | String c _, O => String c EmptyString
  | String _ rest, S pos' => charAt rest pos'
  end.

(** [s.slice (start)] for a start that is not negative. *)
Fixpoint slice (s : string) (start : nat) : string :=
  match s, start with
  | EmptyString, _ => EmptyString
  | _, O => s
  | String _ rest, S start' => slice rest start'
  end.

Fixpoint trimStart (s : string) : string :=
  match s with
  | EmptyString => EmptyString
  | String c rest => if is_whitespace c then trimStart rest else s
  end.

Fixpoint trimEnd (s : string) : string :=
  match s with
  | EmptyString => EmptyString
  | String c rest =>
      match trimEnd rest with
      | EmptyString => if is_whitespace c then EmptyString else String c EmptyString
      | kept => String c kept
      end
  end.

Definition trim (s : string) : string := trimEnd (trimStart s).

(** ToBoolean on a string: only the empty string is falsy. *)
Definition truthy (s : string) : bool :=
  match s with
  | EmptyString => false
  | String _ _ => true
  end.

(** [s] consists of white space only. *)
Fixpoint all_whitespace (s : string) : bool :=
  match s with
  | EmptyString => true
  | String c rest => is_whitespace c && all_whitespace rest
  end.

(** [sub] occurs in [s]. *)
Definition Contains (s sub : string) : Prop :=
  exists before after, s = before ++ sub ++ after.

(** [sub] occurs in [s] up to the case of its letters. *)
Definition ContainsIgnoringCase (s sub : string) : Prop :=
  exists before mid after,
    s = before ++ mid ++ after /\ toLowerCase mid = toLowerCase sub.

(** The 256 code units of the model, for checks by enumeration. *)
Definition all_units : list ascii := List.map ascii_of_nat (seq 0 256).

(** Two units agree up to case: the test the flag [i] performs, and the
    test through the lower-case forms. *)
Definition same_canonical (a b : ascii) : bool :=
  N.eqb (canonical_unit a) (canonical_unit b).

Definition same_lower (a b : ascii) : bool :=
  Ascii.eqb (lower_unit a) (lower_unit b).

(** Two units have the same upper-case form. *)
Definition same_upper (a b : ascii) : bool :=
  if list_eq_dec N.eq_dec (upper_units a) (upper_units b) then true else false.

(** [sub] occurs in the wide text [text]. *)
Definition ContainsWide (text sub : wide) : Prop :=
  exists before after, text = (before ++ sub ++ after)%list.

End Str.

(* ================================================================== *)
(** ** Regular expressions

    The one pattern of the component is a disjunction of literal words
    under the flag [i].  Without the flag [u], two code units match under
    [i] when their canonical forms ([Str.canonical_unit]) are equal. *)
Module RegExp.

Local Open Scope string_scope.

Record regexp : Type := {
  alternatives : list string;
  ignoreCase : bool
}.

Definition Canonicalize (rx : regexp) (ch : ascii) : N :=
  if ignoreCase rx then Str.canonical_unit ch else N_of_ascii ch.

(** One alternative matched against the input at the current position. *)
Fixpoint match_literal (rx : regexp) (pattern input : string)
         {struct pattern} : bool :=
  match pattern with
  | EmptyString => true
  | String p patternRest =>
      match input with
      | EmptyString => false
      | String c inputRest =>
          N.eqb (Canonicalize rx p) (Canonicalize rx c)
          && match_literal rx patternRest inputRest
      end
  end.

(** The disjunction tries its alternatives from left to right. *)
Definition match_here (rx : regexp) (input : string) : bool :=
  existsb (fun alternative => match_literal rx alternative input)
          (alternatives rx).

(** [rx.test (input)] for a pattern without the flags [g] and [y]: a
    match is looked for at every position from 0 upwards. *)
Fixpoint test (rx : regexp) (input : string) : bool :=
  match_here rx input
  || match input with
     | EmptyString => false
     | String _ rest => test rx rest
     end.

End RegExp.

(* ================================================================== *)
(** ** Dates

    A [Date] holds a time value, the milliseconds since the epoch in UTC,
    or no value when the argument of the constructor is out of range.
    [toLocaleTimeString] is called with an empty locale list and without a
    [timeZone] option: it renders the time value in the time zone and the
    locale of the host.  Both belong to the device, so they are the two
    fields of [Host]. *)
Module DateTime.

Local Open Scope Z_scope.

Record Host : Type := {
  (** offset of the host's zone from UTC, in milliseconds, at a time value *)
  LocalTZA : Z -> Z;
  (** the default locale's rendering of an hour and a minute under
      [{ hour: '2-digit', minute: '2-digit' }] *)
  formatHourMinute : Z -> Z -> string
}.

Definition Date : Type := option Z.

Definition msPerMinute : Z := 60000.
Definition msPerHour : Z := 3600000.

Definition TimeClip (time : Z) : Date :=
  if 8640000000000000 <? Z.abs time then None else Some time.

(** [new Date (value)]. *)
Definition new_Date (value : Z) : Date := TimeClip value.

Definition HourFromTime (t : Z) : Z := (t / msPerHour) mod 24.
Definition MinFromTime (t : Z) : Z := (t / msPerMinute) mod 60.

Definition LocalTime (host : Host) (t : Z) : Z := t + LocalTZA host t.

Definition toLocaleTimeString (host : Host) (date : Date) : string :=
  match date with
  | None => "Invalid Date"%string
  | Some tv =>
      let t := LocalTime host tv in
      formatHourMinute host (HourFromTime t) (MinFromTime t)
  end.

(** A 24-hour locale: two digits, a colon, two digits. *)
Definition digit (n : Z) : ascii := ascii_of_N (48 + Z.to_N n).

Definition two_digit (n : Z) : string :=
  String (digit (n / 10)) (String (digit (n mod 10)) EmptyString).

Definition format24 (hour minute : Z) : string :=
  (two_digit hour ++ ":" ++ two_digit minute)%string.

(** A host on UTC and a host eight hours east of it (Macau, the city of
    the input placeholder), both with the 24-hour rendering. *)
Definition utc_host : Host :=
  {| LocalTZA := fun _ => 0; formatHourMinute := format24 |}.

Definition macau_host : Host :=
  {| LocalTZA := fun _ => 8 * msPerHour; formatHourMinute := format24 |}.

End DateTime.

(* ================================================================== *)
(** ** Text elements and their style

    A [Text] element draws its children under its style.  Of the style
    only [textTransform] changes the text drawn; the component's style
    sheet sets it, to ['capitalize'], for the description alone.  How a
    platform capitalises belongs to the platform, like the zone and the
    locale of [DateTime.Host]. *)
Module Style.

Local Open Scope N_scope.

Inductive TextTransform : Type :=
  | NoTransform
  | Capitalize.

Record TextStyle : Type := {
  textTransform : TextTransform
}.

Record Platform : Type := {
  (** the platform's rendering of a text under ['capitalize'] *)
  capitalize : Str.wide -> Str.wide
}.

(** The text a [Text] element of this style draws for these children. *)
Definition render_text (platform : Platform) (style : TextStyle)
           (children : Str.wide) : Str.wide :=
  match textTransform style with
  | Capitalize => capitalize platform children
  | NoTransform => children
  end.

(** The capitalisation of the native renderers on texts whose words are
    ASCII letters separated by spaces, as the descriptions of the API are:
    the first letter of every word in upper case, its other letters in
    lower case. *)
Definition ascii_upper (n : N) : N :=
  if (97 <=? n) && (n <=? 122) then n - 32 else n.

Definition ascii_lower (n : N) : N :=
  if (65 <=? n) && (n <=? 90) then n + 32 else n.

Fixpoint capitalize_words (word_start : bool) (text : Str.wide) : Str.wide :=
  match text with
  | [] => []
  | n :: rest =>
      if n =? 32 then n :: capitalize_words true rest
      else (if word_start then ascii_upper n else ascii_lower n)
             :: capitalize_words false rest
  end.

Definition native : Platform :=
  {| capitalize := capitalize_words true |}.

End Style.

(* ================================================================== *)
(** ** The two API responses

    The fields the component reads, under the names of the JSON documents:
    [response.data] of the current-weather call and [forecast.data] of the
    forecast call.  [weather] is an array, read at index 0 only; [rain] is
    an optional object whose key ['3h'] is optional too.  [dt] and
    [timezone] are whole seconds, kept in [Z]: their sum times 1000 is
    exact in a Number whenever it is a valid time value. *)
Module Api.

Record Condition : Type := {
  main : string;
  description : string;
  icon : string
}.

Record MainBlock : Type := {
  temp : Num.Number;
  feels_like : Num.Number;
  humidity : Num.Number
}.

Record RainBlock : Type := {
  rain_3h : option Num.Number
}.

Record ForecastItem : Type := {
  item_dt : Z;
  item_main : MainBlock;
  item_weather : list Condition;
  item_rain : option RainBlock
}.

Record CurrentResponse : Type := {
  cur_name : string;
  cur_dt : Z;
  cur_main : MainBlock;
  cur_weather : list Condition
}.

Record City : Type := {
  timezone : Z
}.

Record ForecastResponse : Type := {
  fc_list : list ForecastItem;
  fc_city : City
}.

(** [x.weather[0]] followed by a property read: a [TypeError] when the
    array is empty. *)
Definition weather0 (weather : list Condition) : result Condition :=
  match Arr.at0 weather with
  | Some c => Ok c
  | None => Throw TypeError
  end.

End Api.

(* ================================================================== *)
(** ** The component *)
Module App.

Import Api.
Local Open Scope string_scope.

(** The value of the state variable [weather] once set. *)
Record WeatherState : Type := {
  current : CurrentResponse;
  forecast : ForecastResponse;
  timezoneOffset : Z
}.

Record RainTime : Type := {
  time : string;
  intensity : Num.Number
}.

Record WeatherData : Type := {
  location : string;
  currentTemp : Num.Number;
  avgTemp : Num.Number;
  minTemp : Num.Number;
  maxTemp : Num.Number;
  wd_humidity : Num.Number;
  wd_description : string;
  wd_icon : string;
  willRain : bool;
  rainTimes : list RainTime;
  currentTime : string
}.

(** The three values the state variable [error] takes: [''],
    ['Please enter a city ...'] and ['City not found! Try again ...']. *)
Inductive Message : Type :=
  | NoMessage
  | PleaseEnterCity
  | CityNotFound.

Record State : Type := {
  city : string;
  weather : option WeatherState;
  loading : bool;
  error : Message
}.

Definition setWeather (st : State) (w : WeatherState) : State :=
  {| city := city st; weather := Some w; loading := loading st; error := error st |}.

Definition setLoading (st : State) (b : bool) : State :=
  {| city := city st; weather := weather st; loading := b; error := error st |}.

Definition setError (st : State) (m : Message) : State :=
  {| city := city st; weather := weather st; loading := loading st; error := m |}.

(** [axios.get (url)], by endpoint: [None] when the promise rejects. *)
Record Gateway : Type := {
  get_weather : string -> option CurrentResponse;
  get_forecast : string -> option ForecastResponse
}.

(** The arrow function given to [filter] in [getRainTimes] and to [some]
    in [weatherData]: the same text at both places. *)
Definition mentions_rain (item : ForecastItem) : result bool :=
  c <- weather0 (item_weather item) ;;
  if Str.includes (Str.toLowerCase (main c)) "rain" then Ok true
  else
    c' <- weather0 (item_weather item) ;;
    Ok (Str.includes (Str.toLowerCase (description c')) "rain").

(** [item.rain ? item.rain['3h'] || 0 : 0]. *)
Definition intensity_of (item : ForecastItem) : Num.Number :=
  match item_rain item with
  | Some rain =>
      match rain_3h rain with
      | Some volume => if Num.truthy volume then volume else Num.ofZ 0
      | None => Num.ofZ 0
      end
  | None => Num.ofZ 0
  end.

(** The entries of [StyleSheet.create] for the description and for the
    alert, by what they say of [textTransform]: ['capitalize'] in
    [styles.description], nothing in [styles.alert]. *)
Definition styles_description : Style.TextStyle :=
  {| Style.textTransform := Style.Capitalize |}.

Definition styles_alert : Style.TextStyle :=
  {| Style.textTransform := Style.NoTransform |}.

Definition extreme_pattern : RegExp.regexp :=
  {| RegExp.alternatives := ["typhoon"; "storm"; "hurricane"; "tornado"; "severe"];
     RegExp.ignoreCase := true |}.

Section Component.

(** The device the component runs on and the key of [@env]. *)
Variable host : DateTime.Host.
Variable API_KEY : string.

Definition getLocalTime (timestamp timezoneOffset : Z) : string :=
  let date := DateTime.new_Date ((timestamp + timezoneOffset) * 1000) in
  DateTime.toLocaleTimeString host date.

(** The arrow function given to [map] in [getRainTimes]. *)
Definition rain_time (w : WeatherState) (item : ForecastItem) : RainTime :=
  {| time := getLocalTime (item_dt item) (timezoneOffset w);
     intensity := intensity_of item |}.

Definition getRainTimes (weather : option WeatherState) : result (list RainTime) :=
  match weather with
  | None => Ok []
  | Some w =>
      kept <- Arr.filter mentions_rain (fc_list (forecast w)) ;;
      Arr.map (fun item => Ok (rain_time w item)) kept
  end.

(** [weather && { ... }]: the properties are evaluated in the order of
    the object literal. *)
Definition weatherData (weather : option WeatherState) : result (option WeatherData) :=
  match weather with
  | None => Ok None
  | Some w =>
      let items := fc_list (forecast w) in
      let avg :=
        Num.div (Arr.reduce (fun sum item => Num.add sum (temp (item_main item)))
                            (Num.ofZ 0) items)
                (Num.ofNat (List.length items)) in
      let lo := Num.Math_min (List.map (fun item => temp (item_main item)) items) in
      let hi := Num.Math_max (List.map (fun item => temp (item_main item)) items) in
      c <- weather0 (cur_weather (current w)) ;;
      c' <- weather0 (cur_weather (current w)) ;;
      rain <- Arr.some mentions_rain items ;;
      times <- getRainTimes weather ;;
      Ok (Some {| location := cur_name (current w);
                  currentTemp := temp (cur_main (current w));
                  avgTemp := avg;
                  minTemp := lo;
                  maxTemp := hi;
                  wd_humidity := humidity (cur_main (current w));
                  wd_description := description c;
                  wd_icon := icon c';
                  willRain := rain;
                  rainTimes := times;
                  currentTime := getLocalTime (cur_dt (current w)) (timezoneOffset w) |})
  end.

(** [weather?.current?.weather[0].main === 'Extreme' || /.../i.test (...)];
    with [weather] null both operands read [undefined], and the pattern
    is tested against the string ["undefined"]. *)
Definition extremeWeather (weather : option WeatherState) : result bool :=
  match weather with
  | None => Ok (RegExp.test extreme_pattern "undefined")
  | Some w =>
      c <- weather0 (cur_weather (current w)) ;;
      if String.eqb (main c) "Extreme" then Ok true
      else
        c' <- weather0 (cur_weather (current w)) ;;
        Ok (RegExp.test extreme_pattern (description c'))
  end.

(** The child of the description element:
    [description.charAt (0).toUpperCase () + description.slice (1)]. *)
Definition descriptionText (wd : WeatherData) : Str.wide :=
  (Str.toUpperCase (Str.charAt (wd_description wd) 0)
   ++ Str.units (Str.slice (wd_description wd) 1))%list.

(** [<Text style={styles.description}>{...}</Text>]: what the element
    draws, its child under the style [styles.description]. *)
Definition displayedDescription (platform : Style.Platform)
           (wd : WeatherData) : Str.wide :=
  Style.render_text platform styles_description (descriptionText wd).

Definition weather_url (city : string) : string :=
  "https://api.openweathermap.org/data/2.5/weather?q=" ++ city
  ++ "&appid=" ++ API_KEY ++ "&units=metric".

Definition forecast_url (city : string) : string :=
  "https://api.openweathermap.org/data/2.5/forecast?q=" ++ city
  ++ "&appid=" ++ API_KEY ++ "&units=metric&cnt=8".

(** [fetchWeather], run to completion: the state after the last setter
    and the requests issued, in order.  A rejected request is caught and
    reported as [CityNotFound]; [finally] clears [loading]. *)
Definition fetchWeather (gw : Gateway) (st : State) : State * list string :=
  if negb (Str.truthy (Str.trim (city st))) then
    (setError st PleaseEnterCity, [])
  else
    let st1 := setError (setLoading st true) NoMessage in
    match get_weather gw (weather_url (city st)) with
    | None =>
        (setLoading (setError st1 CityNotFound) false,
         [weather_url (city st)])
    | Some response =>
        match get_forecast gw (forecast_url (city st)) with
        | None =>
            (setLoading (setError st1 CityNotFound) false,
             [weather_url (city st); forecast_url (city st)])
        | Some fc =>
            (setLoading
               (setWeather st1 {| current := response;
                                  forecast := fc;
                                  timezoneOffset := timezone (fc_city fc) |})
               false,
             [weather_url (city st); forecast_url (city st)])
        end
    end.

End Component.

End App.

(* ================================================================== *)
(** ** What the component renders

    The expressions of the returned tree that compute something: the emoji
    of the title, the cells of the rain grid, the choice between the grid
    and the "no rain" line, and the text of the alert.  The emoji literals
    are named by the constructors of [Emoji] and [RainLabel]. *)
Module View.

Import Api App.
Local Open Scope string_scope.

(** The values [getWeatherEmoji] returns: the rain cloud, the cloud, the
    sun, the snowflake, the lightning, the warning sign and, by default, the
    rainbow. *)
Inductive Emoji : Type :=
  | RainCloud
  | Cloud
  | Sun
  | Snowflake
  | Lightning
  | WarningSign
  | Rainbow.

(** The [switch] compares with [===], case by case from the top. *)
Definition getWeatherEmoji (weatherMain : string) : Emoji :=
  if String.eqb weatherMain "Rain" then RainCloud
  else if String.eqb weatherMain "Clouds" then Cloud
  else if String.eqb weatherMain "Clear" then Sun
  else if String.eqb weatherMain "Snow" then Snowflake
  else if String.eqb weatherMain "Thunderstorm" then Lightning
  else if String.eqb weatherMain "Extreme" then WarningSign
  else Rainbow.

(** The decimal digits of an integer that is not negative. *)
Definition digits (n : Z) : string :=
  NilEmpty.string_of_uint (N.to_uint (Z.to_N n)).

(** The integer nearest to ten times [m * 2^e], the larger one of two
    equally near. *)
Definition tenths (m : positive) (e : Z) : Z :=
  if (0 <=? e)%Z then (10 * Z.pos m * 2 ^ e)%Z
  else ((20 * Z.pos m + 2 ^ (- e)) / (2 * 2 ^ (- e)))%Z.

(** [m * 2^e] is at least 10^21. *)
Definition beyond_fixed (m : positive) (e : Z) : bool :=
  if (0 <=? e)%Z then (10 ^ 21 <=? Z.pos m * 2 ^ e)%Z
  else (10 ^ 21 * 2 ^ (- e) <=? Z.pos m)%Z.

(** The label of a cell of the rain grid: the drop followed by the volume
    ([fixed], then "mm"), or the rain cloud alone. *)
Inductive RainLabel : Type :=
  | VolumeLabel (fixed : string)
  | IconLabel.

Record RainCell : Type := {
  cell_time : string;
  cell_label : RainLabel
}.

Section Rendering.

(** The conversion of a Number to a string, which [toFixed] falls back on
    for the finite values from 10^21 on; left to the host. *)
Variable NumberToString : Num.Number -> string.

(** [x.toFixed (1)]. *)
Definition toFixed1 (x : Num.Number) : string :=
  match x with
  | S754_nan => "NaN"
  | S754_infinity false => "Infinity"
  | S754_infinity true => "-Infinity"
  | S754_zero _ => "0.0"
  | S754_finite s m e =>
      (if s then "-" else "")
      ++ (if beyond_fixed m e then NumberToString (S754_finite false m e)
          else digits (tenths m e / 10) ++ "." ++ digits (tenths m e mod 10))
  end.

(** [renderRainTime ({ item })]: the two texts of the cell. *)
Definition renderRainTime (item : RainTime) : RainCell :=
  {| cell_time := time item;
     cell_label :=
       if Num.ltb (Num.ofZ 0) (intensity item)
       then VolumeLabel (toFixed1 (intensity item))
       else IconLabel |}.

(** [weatherData.willRain ? <FlatList data={weatherData.rainTimes} ... />
    : <Text>No rain expected today!</Text>]: the cells of the grid in the
    order of the data, or [None] for the line without rain. *)
Definition rainSection (wd : WeatherData) : option (list RainCell) :=
  if willRain wd then Some (List.map renderRainTime (rainTimes wd))
  else None.

End Rendering.

(** [extremeWeather && <Text style={styles.alert}>Warning:
    {description.toUpperCase ()}!</Text>]: the upper-cased description the
    alert shows, or [None] without alert.  [styles.alert] sets no
    [textTransform], so the element draws this text as it is. *)
Definition alertText (weather : option WeatherState) : result (option Str.wide) :=
  flag <- extremeWeather weather ;;
  if flag then
    match weather with
    | None => Throw TypeError
    | Some w =>
        c <- weather0 (cur_weather (current w)) ;;
        Ok (Some (Str.toUpperCase (description c)))
    end
  else Ok None.

End View.

(* ================================================================== *)
(** ** The vocabulary of the specification *)
Module Spec.

Import Api App.
Local Open Scope string_scope.

(** The rain predicate on a forecast point: the first condition's [main]
    or its [description], lower-cased, contains "rain". *)
Definition isRainMatch (item : ForecastItem) : Prop :=
  exists c,
    Arr.at0 (item_weather item) = Some c
    /\ (Str.Contains (Str.toLowerCase (main c)) "rain"
        \/ Str.Contains (Str.toLowerCase (description c)) "rain").

Definition isRainMatchb (item : ForecastItem) : bool :=
  match item_weather item with
  | [] => false
  | c :: _ =>
      Str.includes (Str.toLowerCase (main c)) "rain"
      || Str.includes (Str.toLowerCase (description c)) "rain"
  end.

(** A response of the shape the data model gives it: every forecast point
    and the current conditions carry a condition ([weather[0]] exists). *)
Definition has_condition (weather : list Condition) : bool :=
  match weather with
  | [] => false
  | _ :: _ => true
  end.

Definition well_formed (w : WeatherState) : bool :=
  has_condition (cur_weather (current w))
  && forallb (fun item => has_condition (item_weather item))
             (fc_list (forecast w)).

(** The temperatures of the forecast points, in order. *)
Definition temperatures (w : WeatherState) : list Num.Number :=
  List.map (fun item => temp (item_main item)) (fc_list (forecast w)).

Definition no_NaN (xs : list Num.Number) : bool :=
  forallb (fun x => negb (Num.isNaN x)) xs.

(** The arithmetic mean in the arithmetic of Numbers: the sum in sequence
    order divided by the count. *)
Definition mean (xs : list Num.Number) : Num.Number :=
  Num.div (fold_left Num.add xs (Num.ofZ 0)) (Num.ofNat (List.length xs)).

(** [m] is a minimum of [xs]: one of its elements, below all of them. *)
Definition is_minimum (m : Num.Number) (xs : list Num.Number) : Prop :=
  In m xs /\ forall x, In x xs -> Num.leb m x = true.

Definition is_maximum (m : Num.Number) (xs : list Num.Number) : Prop :=
  In m xs /\ forall x, In x xs -> Num.leb x m = true.

(** The rain volume of a forecast point, when it has one: [rain['3h']]. *)
Definition rain_volume (item : ForecastItem) : option Num.Number :=
  match item_rain item with
  | Some rain => rain_3h rain
  | None => None
  end.

Definition extreme_keywords : list string :=
  ["typhoon"; "storm"; "hurricane"; "tornado"; "severe"].

(** The positions of a list at which a predicate holds, increasing. *)
Fixpoint positions {A : Type} (p : A -> bool) (from : nat) (l : list A) : list nat :=
  match l with
  | [] => []
  | x :: rest =>
      if p x then from :: positions p (S from) rest
      else positions p (S from) rest
  end.

End Spec.

(* ================================================================== *)
(** ** Sample responses *)
Module Sample.

Import Api App.
Local Open Scope string_scope.
Local Open Scope Z_scope.

Definition condition (m d : string) : Condition :=
  {| main := m; description := d; icon := "10d" |}.

Definition block (t : Z) : MainBlock :=
  {| temp := Num.ofZ t; feels_like := Num.ofZ t; humidity := Num.ofZ 60 |}.

Definition point (k t : Z) (c : Condition) (r : option RainBlock) : ForecastItem :=
  {| item_dt := 10800 * k;
     item_main := block t;
     item_weather := [c];
     item_rain := r |}.

Definition clear : Condition := condition "Clear" "sunny".
Definition clouds_rain : Condition := condition "Clouds" "light rain".
Definition rain : Condition := condition "Rain" "moderate rain".

(** Eight points, three hours apart, of temperatures 10, 12, ..., 24; the
    second and the fifth mention rain, the second with a volume of 2.3. *)
Definition eight_points : list ForecastItem :=
  [ point 1 10 clear None;
    point 2 12 rain (Some {| rain_3h := Some (Num.decimal 23 1) |});
    point 3 14 clear None;
    point 4 16 clear None;
    point 5 18 clouds_rain None;
    point 6 20 clear None;
    point 7 22 clear None;
    point 8 24 clear None ].

Definition current_clouds : CurrentResponse :=
  {| cur_name := "Macau";
     cur_dt := 0;
     cur_main := block 17;
     cur_weather := [condition "Clouds" "severe thunderstorm warning"] |}.

(** The default of [nth], never reached on [eight_points]. *)
Definition w8_default : ForecastItem := point 0 0 clear None.

Definition macau : City := {| timezone := 28800 |}.

Definition w8 : WeatherState :=
  {| current := current_clouds;
     forecast := {| fc_list := eight_points; fc_city := macau |};
     timezoneOffset := 28800 |}.

Definition w0 : WeatherState :=
  {| current := current_clouds;
     forecast := {| fc_list := []; fc_city := macau |};
     timezoneOffset := 28800 |}.

(** A summary whose description is "light rain". *)
Definition light_rain_summary : WeatherData :=
  {| location := "Macau";
     currentTemp := Num.ofZ 17;
     avgTemp := Num.ofZ 17;
     minTemp := Num.ofZ 10;
     maxTemp := Num.ofZ 24;
     wd_humidity := Num.ofZ 60;
     wd_description := "light rain";
     wd_icon := "10d";
     willRain := false;
     rainTimes := [];
     currentTime := "16:00" |}.

Definition idle (c : string) : State :=
  {| city := c; weather := None; loading := false; error := NoMessage |}.

(** A gateway that answers every request with the eight points, and one
    whose forecast endpoint fails. *)
Definition online : Gateway :=
  {| get_weather := fun _ => Some current_clouds;
     get_forecast := fun _ => Some {| fc_list := eight_points; fc_city := macau |} |}.

Definition forecast_down : Gateway :=
  {| get_weather := fun _ => Some current_clouds;
     get_forecast := fun _ => None |}.

(** A state that shows the eight points, a search for another city under
    way. *)
Definition showing (c : string) : State :=
  {| city := c; weather := Some w8; loading := true; error := NoMessage |}.

(** The host's Number-to-string conversion, of no matter below 10^21. *)
Definition exponent_form : Num.Number -> string := fun _ => "1e+21".

(** A point without a condition and a point whose temperature is NaN. *)
Definition bare_point : ForecastItem :=
  {| item_dt := 10800; item_main := block 10; item_weather := [];
     item_rain := None |}.

Definition nan_point : ForecastItem :=
  {| item_dt := 10800;
     item_main := {| temp := Num.nan; feels_like := Num.ofZ 10;
                     humidity := Num.ofZ 60 |};
     item_weather := [clear];
     item_rain := None |}.

Definition with_points (points : list ForecastItem) : WeatherState :=
  {| current := current_clouds;
     forecast := {| fc_list := points; fc_city := macau |};
     timezoneOffset := 28800 |}.

Definition current_extreme : CurrentResponse :=
  {| cur_name := "Macau";
     cur_dt := 0;
     cur_main := block 17;
     cur_weather := [condition "Extreme" "gale"] |}.

(** A gateway that knows no city. *)
Definition offline : Gateway :=
  {| get_weather := fun _ => None; get_forecast := fun _ => None |}.

End Sample.

Unset Implicit Arguments.

(** Case analysis on every integer and mantissa comparison in sight, for
    the goals that unfold [SFcompare]. *)
Ltac compare_cases :=
  repeat match goal with
         | |- context [Z.compare ?a ?b] =>
             let H := fresh in
             destruct (Z.compare_spec a b) as [H|H|H]
         | H : context [Z.compare ?a ?b] |- _ =>
             let H' := fresh in
             destruct (Z.compare_spec a b) as [H'|H'|H']
         | |- context [Pos.compare_cont Eq ?a ?b] =>
             let H := fresh in
             change (Pos.compare_cont Eq a b) with (Pos.compare a b);
             destruct (Pos.compare_spec a b) as [H|H|H]
         | H : context [Pos.compare_cont Eq ?a ?b] |- _ =>
             let H' := fresh in
             change (Pos.compare_cont Eq a b) with (Pos.compare a b) in H;
             destruct (Pos.compare_spec a b) as [H'|H'|H']
         end;
  simpl in *; subst; try reflexivity; try discriminate; try lia.

(* ================================================================== *)
(** * Properties of the language layer *)

(** ** Arrays: the loops against the list functions *)
Section ArrayFacts.

Variables A B : Type.

Lemma reduce_fold_left (f : B -> A -> B) (arr : list A) (acc : B) :
  Arr.reduce f acc arr = fold_left f arr acc.
Proof.
  revert acc; induction arr as [|x rest IH]; intros acc; simpl; auto.
Qed.

Lemma fold_left_map (g : A -> B) (f : B -> B -> B) (arr : list A) (acc : B) :
  fold_left (fun s x => f s (g x)) arr acc = fold_left f (List.map g arr) acc.
Proof.
  revert acc; induction arr as [|x rest IH]; intros acc; simpl; auto.
Qed.

Variable callback : A -> result bool.
Variable p : A -> bool.

Lemma filter_loop_total (arr kept : list A) :
  (forall x, In x arr -> callback x = Ok (p x)) ->
  Arr.filter_loop callback kept arr = Ok (kept ++ List.filter p arr).
Proof.
  revert kept; induction arr as [|x rest IH]; intros kept Hcb; simpl.
  - now rewrite app_nil_r.
  - rewrite (Hcb x (or_introl eq_refl)); simpl.
    rewrite IH by (intros y Hy; apply Hcb; now right).
    destruct (p x); [now rewrite <- app_assoc | reflexivity].
Qed.

Lemma filter_total (arr : list A) :
  (forall x, In x arr -> callback x = Ok (p x)) ->
  Arr.filter callback arr = Ok (List.filter p arr).
Proof. intros Hcb; unfold Arr.filter; now rewrite filter_loop_total. Qed.

Lemma some_total (arr : list A) :
  (forall x, In x arr -> callback x = Ok (p x)) ->
  Arr.some callback arr = Ok (existsb p arr).
Proof.
  induction arr as [|x rest IH]; intros Hcb; simpl; [reflexivity|].
  rewrite (Hcb x (or_introl eq_refl)); simpl.
  destruct (p x); simpl; [reflexivity|].
  apply IH; intros y Hy; apply Hcb; now right.
Qed.

Lemma map_loop_total (f : A -> B) (arr : list A) (mapped : list B) :
  Arr.map_loop (fun x => Ok (f x)) mapped arr = Ok (mapped ++ List.map f arr).
Proof.
  revert mapped; induction arr as [|x rest IH]; intros mapped; simpl.
  - now rewrite app_nil_r.
  - rewrite IH, <- app_assoc. reflexivity.
Qed.

Lemma map_total (f : A -> B) (arr : list A) :
  Arr.map (fun x => Ok (f x)) arr = Ok (List.map f arr).
Proof. unfold Arr.map; now rewrite map_loop_total. Qed.

End ArrayFacts.

(** ** Lists: the elements a predicate selects, by position *)
Section Positions.

Variable A : Type.
Variable p : A -> bool.

Lemma filter_positions (d : A) (l : list A) (from : nat) :
  List.filter p l
  = List.map (fun k => nth (k - from) l d) (Spec.positions p from l).
Proof.
  revert from; induction l as [|x rest IH]; intros from; simpl; [reflexivity|].
  assert (Hshift : forall ks,
             Forall (fun k => S from <= k) ks ->
             List.map (fun k => nth (k - S from) rest d) ks
             = List.map (fun k => nth (k - from) (x :: rest) d) ks).
  { induction 1 as [|k ks Hk _ IHks]; simpl; [reflexivity|].
    rewrite IHks. f_equal.
    replace (k - from) with (S (k - S from)) by lia. reflexivity. }
  assert (Hge : forall l' n, Forall (fun k => n <= k) (Spec.positions p n l')).
  { induction l' as [|y l' IH']; intros n; simpl; [constructor|].
    destruct (p y).
    - constructor; [lia|]. eapply Forall_impl; [|apply IH']. simpl; intros; lia.
    - eapply Forall_impl; [|apply IH']. simpl; intros; lia. }
  destruct (p x); simpl.
  - rewrite Nat.sub_diag. f_equal. rewrite (IH (S from)). apply Hshift, Hge.
  - rewrite (IH (S from)). apply Hshift, Hge.
Qed.

Lemma positions_none (l : list A) (d : A) (from : nat) :
  (forall k, k < List.length l -> p (nth k l d) = false) ->
  Spec.positions p from l = [].
Proof.
  revert from; induction l as [|x rest IH]; intros from Hl; simpl;
    [reflexivity|].
  pose proof (Hl 0 ltac:(simpl; lia)) as H0. simpl in H0. rewrite H0.
  apply IH. intros k Hk. apply (Hl (S k)). simpl; lia.
Qed.

Lemma positions_one (l : list A) (d : A) (from j : nat) :
  j < List.length l ->
  (forall k, k < List.length l -> (p (nth k l d) = true <-> k = j)) ->
  Spec.positions p from l = [from + j].
Proof.
  revert from j; induction l as [|x rest IH]; intros from j Hj Honly;
    simpl in *; [lia|].
  destruct (p x) eqn:Hx.
  - assert (Hz : 0 = j) by (apply (proj1 (Honly 0 ltac:(lia))); exact Hx).
    subst j. rewrite Nat.add_0_r. f_equal.
    apply positions_none with (d := d). intros k Hk.
    destruct (p (nth k rest d)) eqn:Hk'; [|reflexivity].
    assert (S k = 0) by (apply (proj1 (Honly (S k) ltac:(lia))); exact Hk').
    discriminate.
  - destruct j as [|j].
    + rewrite (proj2 (Honly 0 ltac:(lia)) eq_refl) in Hx. discriminate.
    + rewrite (IH (S from) j).
      * f_equal. lia.
      * lia.
      * intros k Hk. specialize (Honly (S k) ltac:(lia)). simpl in Honly.
        rewrite Honly. lia.
Qed.

Lemma positions_two_from (l : list A) (d : A) (from i j : nat) :
  i < j < List.length l ->
  (forall k, k < List.length l -> (p (nth k l d) = true <-> k = i \/ k = j)) ->
  Spec.positions p from l = [from + i; from + j].
Proof.
  revert from i j; induction l as [|x rest IH]; intros from i j Hij Honly;
    simpl in *; [lia|].
  destruct (p x) eqn:Hx.
  - assert (Hi : i = 0).
    { destruct (proj1 (Honly 0 ltac:(lia)) Hx); lia. }
    subst i. rewrite Nat.add_0_r. f_equal.
    destruct j as [|j]; [lia|].
    rewrite (positions_one rest d (S from) j).
    + f_equal. lia.
    + lia.
    + intros k Hk. specialize (Honly (S k) ltac:(lia)). simpl in Honly.
      rewrite Honly. lia.
  - destruct i as [|i].
    + rewrite (proj2 (Honly 0 ltac:(lia)) (or_introl eq_refl)) in Hx.
      discriminate.
    + destruct j as [|j]; [lia|].
      rewrite (IH (S from) i j).
      * f_equal; [lia | f_equal; lia].
      * lia.
      * intros k Hk. specialize (Honly (S k) ltac:(lia)). simpl in Honly.
        rewrite Honly. lia.
Qed.

(** When exactly the positions [i < j] satisfy the predicate, the
    selected elements are the one at [i], then the one at [j]. *)
Lemma filter_two (l : list A) (d : A) (i j : nat) :
  i < j < List.length l ->
  (forall k, k < List.length l -> (p (nth k l d) = true <-> k = i \/ k = j)) ->
  List.filter p l = [nth i l d; nth j l d].
Proof.
  intros Hij Honly.
  rewrite (filter_positions d l 0), (positions_two_from l d 0 i j Hij Honly).
  simpl. now rewrite !Nat.sub_0_r.
Qed.

End Positions.

(** ** Strings *)
Section StringFacts.

Local Open Scope string_scope.

Lemma startsWith_prefix (s sub : string) :
  Str.startsWith s sub = true <-> exists after, s = sub ++ after.
Proof.
  revert s; induction sub as [|p sub IH]; intros s; simpl.
  - split; [intros _; now exists s | reflexivity].
  - destruct s as [|c s].
    + split; [discriminate | intros [after H]; discriminate].
    + rewrite andb_true_iff, Ascii.eqb_eq, IH. split.
      * intros [-> [after ->]]. now exists after.
      * intros [after H]. injection H as -> ->. split; [reflexivity|].
        now exists after.
Qed.

(** [includes] searches every position: it finds the substring exactly
    when the string splits around it. *)
Lemma includes_Contains (s sub : string) :
  Str.includes s sub = true <-> Str.Contains s sub.
Proof.
  unfold Str.Contains. induction s as [|c s IH].
  - simpl. rewrite orb_false_r, startsWith_prefix. split.
    + intros [after H]. now exists "", after.
    + intros [before [after H]]. destruct before; [|discriminate].
      now exists after.
  - cbn [Str.includes]. rewrite orb_true_iff, startsWith_prefix, IH. split.
    + intros [[after H] | [before [after H]]].
      * now exists "", after.
      * exists (String c before), after. simpl. now rewrite H.
    + intros [[|b before] [after H]].
      * left. now exists after.
      * right. simpl in H. injection H as _ H. now exists before, after.
Qed.

Lemma trimEnd_empty (s : string) :
  Str.trimEnd s = "" <-> Str.all_whitespace s = true.
Proof.
  induction s as [|c s IH]; simpl; [tauto|].
  rewrite andb_true_iff, <- IH.
  destruct (Str.trimEnd s) eqn:Ht; destruct (Str.is_whitespace c);
    split; intros H; try discriminate; try tauto;
    destruct H as [? ?]; discriminate.
Qed.

Lemma trimStart_whitespace (s : string) :
  Str.all_whitespace (Str.trimStart s) = Str.all_whitespace s.
Proof.
  induction s as [|c s IH]; simpl; [reflexivity|].
  destruct (Str.is_whitespace c) eqn:Hc; simpl; [exact IH | now rewrite Hc].
Qed.

(** [trim] leaves nothing exactly of the strings made of white space. *)
Lemma trim_empty (s : string) :
  Str.truthy (Str.trim s) = negb (Str.all_whitespace s).
Proof.
  unfold Str.trim. rewrite <- trimStart_whitespace.
  destruct (Str.all_whitespace (Str.trimStart s)) eqn:Hw.
  - apply trimEnd_empty in Hw. now rewrite Hw.
  - destruct (Str.trimEnd (Str.trimStart s)) eqn:Ht; [|reflexivity].
    apply trimEnd_empty in Ht. congruence.
Qed.

Lemma all_units_complete (c : ascii) : In c Str.all_units.
Proof.
  unfold Str.all_units. rewrite <- (ascii_nat_embedding c).
  apply in_map, in_seq. pose proof (nat_ascii_bounded c). lia.
Qed.

(** The comparison through upper-case forms, which the flag [i] makes,
    and the comparison through lower-case forms agree on every pair of
    units: checked on the 65536 pairs. *)
Lemma same_canonical_same_lower (a b : ascii) :
  Str.same_canonical a b = Str.same_lower a b.
Proof.
  assert (Hall : forallb (fun x => forallb (fun y =>
                   Bool.eqb (Str.same_canonical x y) (Str.same_lower x y))
                   Str.all_units) Str.all_units = true)
    by (vm_compute; reflexivity).
  rewrite forallb_forall in Hall.
  specialize (Hall a (all_units_complete a)).
  rewrite forallb_forall in Hall.
  specialize (Hall b (all_units_complete b)).
  now apply eqb_prop.
Qed.

End StringFacts.

(** ** Regular expressions *)
Section RegExpFacts.

Local Open Scope string_scope.

Variable rx : RegExp.regexp.
Hypothesis rx_i : RegExp.ignoreCase rx = true.

Lemma match_literal_lower (pattern input : string) :
  RegExp.match_literal rx pattern input = true
  <-> exists mid after,
        input = mid ++ after
        /\ Str.toLowerCase mid = Str.toLowerCase pattern.
Proof.
  revert input; induction pattern as [|p pattern IH]; intros input; simpl.
  - split; [intros _; now exists "", input|reflexivity].
  - destruct input as [|c input].
    + split; [discriminate|].
      intros [[|m mid] [after [H1 H2]]]; discriminate.
    + unfold RegExp.Canonicalize. rewrite rx_i.
      change (N.eqb (Str.canonical_unit p) (Str.canonical_unit c))
        with (Str.same_canonical p c).
      rewrite same_canonical_same_lower. unfold Str.same_lower.
      rewrite andb_true_iff, Ascii.eqb_eq, IH. split.
      * intros [Hpc [mid [after [-> Hmid]]]].
        exists (String c mid), after. simpl. now rewrite Hmid, Hpc.
      * intros [[|m mid] [after [H1 H2]]]; [discriminate|].
        simpl in H1, H2. injection H1 as -> ->. injection H2 as Hm Hmid.
        split; [now symmetry|]. now exists mid, after.
Qed.

Lemma match_here_lower (input : string) :
  RegExp.match_here rx input = true
  <-> exists alt mid after,
        In alt (RegExp.alternatives rx)
        /\ input = mid ++ after
        /\ Str.toLowerCase mid = Str.toLowerCase alt.
Proof.
  unfold RegExp.match_here. rewrite existsb_exists. split.
  - intros [alt [Hin Hm]]. apply match_literal_lower in Hm.
    destruct Hm as [mid [after [H1 H2]]]. now exists alt, mid, after.
  - intros [alt [mid [after [Hin [H1 H2]]]]]. exists alt. split; [exact Hin|].
    apply match_literal_lower. now exists mid, after.
Qed.

(** A pattern of literal alternatives under [i] accepts exactly the
    inputs that contain one alternative up to case. *)
Lemma test_ContainsIgnoringCase (input : string) :
  RegExp.test rx input = true
  <-> exists alt, In alt (RegExp.alternatives rx)
                  /\ Str.ContainsIgnoringCase input alt.
Proof.
  unfold Str.ContainsIgnoringCase. induction input as [|c input IH].
  - simpl. rewrite orb_false_r, match_here_lower. split.
    + intros [alt [mid [after [Hin [H1 H2]]]]].
      exists alt. split; [exact Hin|]. now exists "", mid, after.
    + intros [alt [Hin [[|b before] [mid [after [H1 H2]]]]]]; [|discriminate].
      now exists alt, mid, after.
  - cbn [RegExp.test]. rewrite orb_true_iff, match_here_lower, IH. split.
    + intros [[alt [mid [after [Hin [H1 H2]]]]]
             | [alt [Hin [before [mid [after [H1 H2]]]]]]].
      * exists alt. split; [exact Hin|]. now exists "", mid, after.
      * exists alt. split; [exact Hin|].
        exists (String c before), mid, after. simpl. now rewrite H1.
    + intros [alt [Hin [[|b before] [mid [after [H1 H2]]]]]].
      * left. now exists alt, mid, after.
      * right. simpl in H1. injection H1 as _ H1.
        exists alt. split; [exact Hin|]. now exists before, mid, after.
Qed.

End RegExpFacts.

(** ** Numbers: the order of [<] and [<=] away from NaN *)
Section NumberOrder.

Lemma leb_refl (x : Num.Number) :
  Num.isNaN x = false -> Num.leb x x = true.
Proof.
  unfold Num.leb, SFleb, SFcompare.
  destruct x as [[|]|[|]| |[|] m e]; simpl; intros H;
    try reflexivity; try discriminate; compare_cases.
Qed.

Lemma ltb_leb (x y : Num.Number) :
  Num.ltb x y = true -> Num.leb x y = true.
Proof.
  unfold Num.ltb, Num.leb, SFltb, SFleb.
  destruct (SFcompare x y) as [[| |]|]; intros H;
    try reflexivity; discriminate.
Qed.

Lemma not_ltb_leb (x y : Num.Number) :
  Num.isNaN x = false -> Num.isNaN y = false ->
  Num.ltb x y = false -> Num.leb y x = true.
Proof.
  unfold Num.ltb, Num.leb, SFltb, SFleb, SFcompare.
  destruct x as [[|]|[|]| |[|] m1 e1]; destruct y as [[|]|[|]| |[|] m2 e2];
    simpl; intros Hx Hy H; try reflexivity; try discriminate;
    compare_cases.
Qed.

Lemma leb_trans (x y z : Num.Number) :
  Num.leb x y = true -> Num.leb y z = true -> Num.leb x z = true.
Proof.
  unfold Num.leb, SFleb, SFcompare.
  destruct x as [[|]|[|]| |[|] m1 e1]; destruct y as [[|]|[|]| |[|] m2 e2];
    destruct z as [[|]|[|]| |[|] m3 e3];
    simpl; intros Hxy Hyz; try reflexivity; try discriminate;
    compare_cases.
Qed.

(** Nothing but +Infinity fails to be below +Infinity. *)
Lemma not_below_infinity (x : Num.Number) :
  Num.isNaN x = false -> Num.ltb x Num.infinity = false -> x = Num.infinity.
Proof.
  destruct x as [[|]|[|]| |[|] m e]; simpl; intros Hx H;
    try reflexivity; discriminate.
Qed.

Lemma not_above_neg_infinity (x : Num.Number) :
  Num.isNaN x = false -> Num.ltb Num.neg_infinity x = false ->
  x = Num.neg_infinity.
Proof.
  destruct x as [[|]|[|]| |[|] m e]; simpl; intros Hx H;
    try reflexivity; discriminate.
Qed.

End NumberOrder.

(** ** [Math.min] and [Math.max] *)
Section MinMax.

(** One turn of the loop of [Math.min]: the new [lowest] is the argument
    or the old [lowest], and it is below both. *)
Lemma min_step (lowest number : Num.Number) :
  Num.isNaN lowest = false -> Num.isNaN number = false ->
  let lowest1 :=
    if Num.is_neg_zero number && Num.is_pos_zero lowest then Num.neg_zero
    else lowest in
  let lowest2 := if Num.ltb number lowest1 then number else lowest1 in
  (lowest2 = number \/ lowest2 = lowest)
  /\ Num.leb lowest2 lowest = true
  /\ Num.leb lowest2 number = true.
Proof.
  intros Hl Hn.
  destruct (Num.is_neg_zero number && Num.is_pos_zero lowest) eqn:Hz.
  - apply andb_true_iff in Hz. destruct Hz as [Hz1 Hz2].
    destruct number as [[|]| | |]; try discriminate.
    destruct lowest as [[|]| | |]; try discriminate.
    cbv. auto.
  - cbv zeta. destruct (Num.ltb number lowest) eqn:Hlt.
    + repeat split; [now left | now apply ltb_leb | now apply leb_refl].
    + repeat split; [now right | now apply leb_refl | now apply not_ltb_leb].
Qed.

Lemma min_loop_below (args : list Num.Number) (lowest : Num.Number) :
  Spec.no_NaN args = true -> Num.isNaN lowest = false ->
  (Num.min_loop lowest args = lowest \/ In (Num.min_loop lowest args) args)
  /\ Num.leb (Num.min_loop lowest args) lowest = true
  /\ (forall x, In x args -> Num.leb (Num.min_loop lowest args) x = true).
Proof.
  revert lowest; induction args as [|number rest IH]; intros lowest Hargs Hl.
  - simpl. repeat split; [now left | now apply leb_refl | intros x []].
  - simpl in Hargs. apply andb_true_iff in Hargs. destruct Hargs as [Hn Hrest].
    apply negb_true_iff in Hn. cbn [Num.min_loop]. rewrite Hn.
    destruct (min_step lowest number Hl Hn) as [Hfrom [Hlow Hnum]].
    cbv zeta in *.
    set (lowest2 := if Num.ltb number _ then number else _) in *.
    assert (Hl2 : Num.isNaN lowest2 = false)
      by (destruct Hfrom as [-> | ->]; assumption).
    destruct (IH lowest2 Hrest Hl2) as [Hin [Hle Hall]].
    repeat split.
    + destruct Hin as [Hin | Hin].
      * rewrite Hin. destruct Hfrom as [-> | ->]; [right; now left | now left].
      * right; now right.
    + eapply leb_trans; eassumption.
    + intros x [<- | Hx]; [eapply leb_trans; eassumption | now apply Hall].
Qed.

(** On a non-empty list without NaN, [Math.min] returns a minimum. *)
Lemma Math_min_minimum (args : list Num.Number) :
  args <> [] -> Spec.no_NaN args = true ->
  Spec.is_minimum (Num.Math_min args) args.
Proof.
  destruct args as [|number rest]; [congruence|]. intros _ Hargs.
  simpl in Hargs. apply andb_true_iff in Hargs. destruct Hargs as [Hn Hrest].
  apply negb_true_iff in Hn.
  assert (Hfirst : Num.Math_min (number :: rest) = Num.min_loop number rest).
  { unfold Num.Math_min. cbn [Num.min_loop]. rewrite Hn.
    replace (Num.is_pos_zero Num.infinity) with false by reflexivity.
    rewrite andb_false_r.
    destruct (Num.ltb number Num.infinity) eqn:Hlt; [reflexivity|].
    now rewrite (not_below_infinity number Hn Hlt). }
  rewrite Hfirst.
  destruct (min_loop_below rest number Hrest Hn) as [Hin [Hle Hall]].
  split.
  - destruct Hin as [-> | Hin]; [now left | now right].
  - intros x [<- | Hx]; [exact Hle | now apply Hall].
Qed.

Lemma max_step (highest number : Num.Number) :
  Num.isNaN highest = false -> Num.isNaN number = false ->
  let highest1 :=
    if Num.is_pos_zero number && Num.is_neg_zero highest then Num.pos_zero
    else highest in
  let highest2 := if Num.ltb highest1 number then number else highest1 in
  (highest2 = number \/ highest2 = highest)
  /\ Num.leb highest highest2 = true
  /\ Num.leb number highest2 = true.
Proof.
  intros Hh Hn.
  destruct (Num.is_pos_zero number && Num.is_neg_zero highest) eqn:Hz.
  - apply andb_true_iff in Hz. destruct Hz as [Hz1 Hz2].
    destruct number as [[|]| | |]; try discriminate.
    destruct highest as [[|]| | |]; try discriminate.
    cbv. auto.
  - cbv zeta. destruct (Num.ltb highest number) eqn:Hlt.
    + repeat split; [now left | now apply ltb_leb | now apply leb_refl].
    + repeat split; [now right | now apply leb_refl | now apply not_ltb_leb].
Qed.

Lemma max_loop_above (args : list Num.Number) (highest : Num.Number) :
  Spec.no_NaN args = true -> Num.isNaN highest = false ->
  (Num.max_loop highest args = highest \/ In (Num.max_loop highest args) args)
  /\ Num.leb highest (Num.max_loop highest args) = true
  /\ (forall x, In x args -> Num.leb x (Num.max_loop highest args) = true).
Proof.
  revert highest; induction args as [|number rest IH]; intros highest Hargs Hh.
  - simpl. repeat split; [now left | now apply leb_refl | intros x []].
  - simpl in Hargs. apply andb_true_iff in Hargs. destruct Hargs as [Hn Hrest].
    apply negb_true_iff in Hn. cbn [Num.max_loop]. rewrite Hn.
    destruct (max_step highest number Hh Hn) as [Hfrom [Hhigh Hnum]].
    cbv zeta in *.
    set (highest2 := if Num.ltb _ number then number else _) in *.
    assert (Hh2 : Num.isNaN highest2 = false)
      by (destruct Hfrom as [-> | ->]; assumption).
    destruct (IH highest2 Hrest Hh2) as [Hin [Hle Hall]].
    repeat split.
    + destruct Hin as [Hin | Hin].
      * rewrite Hin. destruct Hfrom as [-> | ->]; [right; now left | now left].
      * right; now right.
    + eapply leb_trans; eassumption.
    + intros x [<- | Hx]; [eapply leb_trans; eassumption | now apply Hall].
Qed.

(** On a non-empty list without NaN, [Math.max] returns a maximum. *)
Lemma Math_max_maximum (args : list Num.Number) :
  args <> [] -> Spec.no_NaN args = true ->
  Spec.is_maximum (Num.Math_max args) args.
Proof.
  destruct args as [|number rest]; [congruence|]. intros _ Hargs.
  simpl in Hargs. apply andb_true_iff in Hargs. destruct Hargs as [Hn Hrest].
  apply negb_true_iff in Hn.
  assert (Hfirst : Num.Math_max (number :: rest) = Num.max_loop number rest).
  { unfold Num.Math_max. cbn [Num.max_loop]. rewrite Hn.
    replace (Num.is_neg_zero Num.neg_infinity) with false by reflexivity.
    rewrite andb_false_r.
    destruct (Num.ltb Num.neg_infinity number) eqn:Hlt; [reflexivity|].
    now rewrite (not_above_neg_infinity number Hn Hlt). }
  rewrite Hfirst.
  destruct (max_loop_above rest number Hrest Hn) as [Hin [Hle Hall]].
  split.
  - destruct Hin as [-> | Hin]; [now left | now right].
  - intros x [<- | Hx]; [exact Hle | now apply Hall].
Qed.

End MinMax.

(* ================================================================== *)
(** * Properties of the component *)

(** ** The rain callback, [getRainTimes] and [weatherData] on well-formed
       responses *)
Section ComponentFacts.

Import Api App.
Local Open Scope string_scope.

Variable host : DateTime.Host.

Lemma mentions_rain_total (item : ForecastItem) :
  Spec.has_condition (item_weather item) = true ->
  mentions_rain item = Ok (Spec.isRainMatchb item).
Proof.
  unfold mentions_rain, Spec.isRainMatchb, weather0.
  destruct (item_weather item) as [|c rest]; [discriminate|]. intros _. simpl.
  destruct (Str.includes (Str.toLowerCase (main c)) "rain"); reflexivity.
Qed.

Lemma isRainMatchb_isRainMatch (item : ForecastItem) :
  Spec.isRainMatchb item = true <-> Spec.isRainMatch item.
Proof.
  unfold Spec.isRainMatchb, Spec.isRainMatch.
  destruct (item_weather item) as [|c rest]; simpl.
  - split; [discriminate | intros [c [H _]]; discriminate].
  - rewrite orb_true_iff, !includes_Contains. split.
    + intros H. now exists c.
    + intros [c' [Hc H]]. now injection Hc as ->.
Qed.

Lemma well_formed_items (w : WeatherState) :
  Spec.well_formed w = true ->
  forall item, In item (fc_list (forecast w)) ->
               mentions_rain item = Ok (Spec.isRainMatchb item).
Proof.
  unfold Spec.well_formed. rewrite andb_true_iff, forallb_forall.
  intros [_ Hall] item Hin. apply mentions_rain_total. now apply Hall.
Qed.

Lemma getRainTimes_total (w : WeatherState) :
  Spec.well_formed w = true ->
  getRainTimes host (Some w)
  = Ok (List.map (rain_time host w)
                 (List.filter Spec.isRainMatchb (fc_list (forecast w)))).
Proof.
  intros Hwf. unfold getRainTimes.
  rewrite (filter_total _ mentions_rain Spec.isRainMatchb _ (well_formed_items w Hwf)).
  simpl. apply map_total.
Qed.

Lemma weatherData_total (w : WeatherState) :
  Spec.well_formed w = true ->
  exists c,
    Arr.at0 (cur_weather (current w)) = Some c
    /\ weatherData host (Some w)
       = Ok (Some
               {| location := cur_name (current w);
                  currentTemp := temp (cur_main (current w));
                  avgTemp := Spec.mean (Spec.temperatures w);
                  minTemp := Num.Math_min (Spec.temperatures w);
                  maxTemp := Num.Math_max (Spec.temperatures w);
                  wd_humidity := humidity (cur_main (current w));
                  wd_description := description c;
                  wd_icon := icon c;
                  willRain := existsb Spec.isRainMatchb (fc_list (forecast w));
                  rainTimes :=
                    List.map (rain_time host w)
                             (List.filter Spec.isRainMatchb (fc_list (forecast w)));
                  currentTime :=
                    getLocalTime host (cur_dt (current w)) (timezoneOffset w) |}).
Proof.
  intros Hwf. pose proof Hwf as Hwf'.
  unfold Spec.well_formed in Hwf'. apply andb_true_iff in Hwf'.
  destruct Hwf' as [Hcur _].
  destruct (cur_weather (current w)) as [|c rest] eqn:Hc; [discriminate|].
  exists c. split; [reflexivity|].
  unfold weatherData. rewrite Hc. cbn [weather0 Arr.at0 bind].
  rewrite (some_total _ mentions_rain Spec.isRainMatchb _ (well_formed_items w Hwf)).
  cbn [bind]. rewrite (getRainTimes_total w Hwf). cbn [bind].
  unfold Spec.mean, Spec.temperatures.
  rewrite reduce_fold_left, fold_left_map, length_map. reflexivity.
Qed.

(** [item.rain ? item.rain['3h'] || 0 : 0] against the rain volume. *)
Lemma intensity_of_volume (item : ForecastItem) :
  match Spec.rain_volume item with
  | Some volume =>
      (Num.isNaN volume = false -> Num.eqb (intensity_of item) volume = true)
      /\ (Num.truthy volume = true -> intensity_of item = volume)
  | None => intensity_of item = Num.ofZ 0
  end.
Proof.
  unfold Spec.rain_volume, intensity_of.
  destruct (item_rain item) as [[[volume|]]|]; cbn [rain_3h];
    try reflexivity.
  destruct volume as [s|s| |s m e]; cbn [Num.truthy Num.isNaN]; split;
    intros H; try reflexivity; try discriminate.
  - destruct s; reflexivity.
  - unfold Num.eqb, SFeqb, SFcompare.
    destruct s; rewrite Z.compare_refl, Pos.compare_cont_refl; reflexivity.
Qed.

(** The rain callback on the three points of the specification's first
    testable property. *)
Example mentions_rain_by_main :
  mentions_rain (Sample.point 1 10 (Sample.condition "Rain" "downpour") None)
  = Ok true.
Proof. reflexivity. Qed.

Example mentions_rain_by_description :
  mentions_rain (Sample.point 1 10 Sample.clouds_rain None) = Ok true.
Proof. reflexivity. Qed.

Example mentions_rain_clear :
  mentions_rain (Sample.point 1 10 Sample.clear None) = Ok false.
Proof. reflexivity. Qed.

(** A point without a condition makes the callback throw. *)
Example mentions_rain_throws :
  mentions_rain {| item_dt := 0; item_main := Sample.block 10;
                   item_weather := []; item_rain := None |}
  = Throw TypeError.
Proof. reflexivity. Qed.

Lemma existsb_filter (A : Type) (p : A -> bool) (l : list A) :
  existsb p l = true <-> List.filter p l <> [].
Proof.
  induction l as [|x rest IH]; simpl.
  - split; [discriminate | congruence].
  - destruct (p x); simpl; [split; [discriminate | reflexivity] | exact IH].
Qed.

End ComponentFacts.

(* ================================================================== *)
(** * The claims of the specification *)

Section Claims.

Import Api App.
Local Open Scope string_scope.

(** ** Local time *)

(** What [getLocalTime] renders on any host: the hour and the minute of
    the instant [timestamp + timezoneOffset] moved once more by the
    host's own offset. *)
Lemma getLocalTime_host_zone (host : DateTime.Host) (timestamp offset : Z) :
  (Z.abs ((timestamp + offset) * 1000) <= 8640000000000000)%Z ->
  getLocalTime host timestamp offset
  = let instant := ((timestamp + offset) * 1000)%Z in
    let shifted := (instant + DateTime.LocalTZA host instant)%Z in
    DateTime.formatHourMinute host (DateTime.HourFromTime shifted)
                              (DateTime.MinFromTime shifted).
Proof.
  intros Hrange. unfold getLocalTime, DateTime.new_Date, DateTime.TimeClip.
  destruct (Z.ltb_spec 8640000000000000 (Z.abs ((timestamp + offset) * 1000)));
    [lia | reflexivity].
Qed.

(** C1, not met by the code.  The specification wants the rendered
    hour:minute to be that of the instant [t + o], whatever the time zone
    of the host.  [toLocaleTimeString] is called without a [timeZone]
    option, so the host's zone is applied on top of the offset: the instant
    0 with offset 0 is rendered "00:00" on a host on UTC and "08:00" on a
    host eight hours east of UTC. *)
Theorem getLocalTime_depends_on_host_zone :
  getLocalTime DateTime.utc_host 0 0 = "00:00"
  /\ getLocalTime DateTime.macau_host 0 0 = "08:00".
Proof. split; vm_compute; reflexivity. Qed.

(** ** Statistics of the temperatures *)

(** C2.  With an empty forecast list and current conditions that carry a
    condition, [weatherData] raises nothing and returns a summary whose
    [avgTemp] is NaN (0 / 0), whose [minTemp] is +Infinity ([Math.min ()])
    and whose [maxTemp] is -Infinity ([Math.max ()]), whatever the
    current conditions, the city, the offset and the host. *)
Theorem empty_forecast_statistics
        (host : DateTime.Host) (cur : CurrentResponse) (cty : City) (tz : Z) :
  Spec.has_condition (cur_weather cur) = true ->
  exists wd,
    weatherData host
      (Some {| current := cur;
               forecast := {| fc_list := []; fc_city := cty |};
               timezoneOffset := tz |})
    = Ok (Some wd)
    /\ avgTemp wd = Num.nan
    /\ minTemp wd = Num.infinity
    /\ maxTemp wd = Num.neg_infinity
    /\ willRain wd = false
    /\ rainTimes wd = [].
Proof.
  intros Hcur.
  set (w := {| current := cur;
               forecast := {| fc_list := []; fc_city := cty |};
               timezoneOffset := tz |}).
  assert (Hwf : Spec.well_formed w = true).
  { unfold Spec.well_formed. simpl. now rewrite Hcur. }
  destruct (weatherData_total host w Hwf) as [c [_ Hwd]].
  eexists. split; [exact Hwd|]. simpl. repeat split.
Qed.

Lemma empty_forecast_statistics_witness :
  exists wd,
    weatherData DateTime.utc_host (Some Sample.w0) = Ok (Some wd)
    /\ avgTemp wd = Num.nan
    /\ minTemp wd = Num.infinity
    /\ maxTemp wd = Num.neg_infinity
    /\ willRain wd = false
    /\ rainTimes wd = [].
Proof.
  apply (empty_forecast_statistics DateTime.utc_host Sample.current_clouds
                                   Sample.macau 28800).
  reflexivity.
Defined.

(** C6.  On a well-formed response with a non-empty forecast list whose
    temperatures are numbers (no NaN), [avgTemp] is the arithmetic mean of
    the temperatures in the arithmetic of Numbers, [minTemp] is a minimum
    of them and [maxTemp] a maximum; for the eight temperatures
    10, 12, ..., 24 these are 17, 10 and 24. *)
Theorem temperature_statistics (host : DateTime.Host) (w : WeatherState) :
  Spec.well_formed w = true ->
  fc_list (forecast w) <> [] ->
  Spec.no_NaN (Spec.temperatures w) = true ->
  exists wd,
    weatherData host (Some w) = Ok (Some wd)
    /\ avgTemp wd = Spec.mean (Spec.temperatures w)
    /\ Spec.is_minimum (minTemp wd) (Spec.temperatures w)
    /\ Spec.is_maximum (maxTemp wd) (Spec.temperatures w)
    /\ (Spec.temperatures w
        = List.map Num.ofZ [10; 12; 14; 16; 18; 20; 22; 24]%Z ->
        avgTemp wd = Num.ofZ 17
        /\ minTemp wd = Num.ofZ 10
        /\ maxTemp wd = Num.ofZ 24).
Proof.
  intros Hwf Hne Hnum.
  destruct (weatherData_total host w Hwf) as [c [_ Hwd]].
  eexists. split; [exact Hwd|]. cbn [avgTemp minTemp maxTemp].
  assert (Hne' : Spec.temperatures w <> []).
  { unfold Spec.temperatures. destruct (fc_list (forecast w));
      [congruence | discriminate]. }
  split; [reflexivity|].
  split; [now apply Math_min_minimum|].
  split; [now apply Math_max_maximum|].
  intros ->. repeat split; vm_compute; reflexivity.
Qed.

Lemma temperature_statistics_witness :
  exists wd,
    weatherData DateTime.macau_host (Some Sample.w8) = Ok (Some wd)
    /\ avgTemp wd = Num.ofZ 17
    /\ minTemp wd = Num.ofZ 10
    /\ maxTemp wd = Num.ofZ 24.
Proof.
  destruct (temperature_statistics DateTime.macau_host Sample.w8)
    as [wd [Hwd [_ [_ [_ Hvalues]]]]].
  - reflexivity.
  - discriminate.
  - reflexivity.
  - exists wd. split; [exact Hwd|]. apply Hvalues. reflexivity.
Defined.

(** ** Rain *)

(** C3.  On a well-formed response, [willRain] is true exactly when some
    forecast point satisfies the rain predicate: the lower-cased [main] of
    its condition contains "rain", or the lower-cased [description]
    does. *)
Theorem willRain_iff_some_point_matches (host : DateTime.Host) (w : WeatherState) :
  Spec.well_formed w = true ->
  exists wd,
    weatherData host (Some w) = Ok (Some wd)
    /\ (willRain wd = true
        <-> exists item,
              In item (fc_list (forecast w)) /\ Spec.isRainMatch item).
Proof.
  intros Hwf. destruct (weatherData_total host w Hwf) as [c [_ Hwd]].
  eexists. split; [exact Hwd|]. cbn [willRain].
  rewrite existsb_exists. split.
  - intros [item [Hin Hm]]. exists item. split; [exact Hin|].
    now apply isRainMatchb_isRainMatch.
  - intros [item [Hin Hm]]. exists item. split; [exact Hin|].
    now apply isRainMatchb_isRainMatch.
Qed.

Lemma willRain_iff_some_point_matches_witness :
  exists wd,
    weatherData DateTime.macau_host (Some Sample.w8) = Ok (Some wd)
    /\ (willRain wd = true
        <-> exists item, In item Sample.eight_points /\ Spec.isRainMatch item).
Proof.
  apply (willRain_iff_some_point_matches DateTime.macau_host Sample.w8).
  reflexivity.
Defined.

(** C4.  On a well-formed response, [getRainTimes] returns one entry per
    rain-matching point and no other, in the order of the forecast list:
    the entries are those of the list filtered by the rain predicate.  In
    particular, when exactly the positions [i < j] match, the result has
    two entries, the one made from the point at [i], then the one made
    from the point at [j]. *)
Theorem getRainTimes_matching_points_in_order
        (host : DateTime.Host) (w : WeatherState) :
  Spec.well_formed w = true ->
  getRainTimes host (Some w)
  = Ok (List.map (rain_time host w)
                 (List.filter Spec.isRainMatchb (fc_list (forecast w))))
  /\ forall (d : ForecastItem) (i j : nat),
       i < j < List.length (fc_list (forecast w)) ->
       (forall k, k < List.length (fc_list (forecast w)) ->
                  (Spec.isRainMatch (nth k (fc_list (forecast w)) d)
                   <-> k = i \/ k = j)) ->
       getRainTimes host (Some w)
       = Ok [rain_time host w (nth i (fc_list (forecast w)) d);
             rain_time host w (nth j (fc_list (forecast w)) d)].
Proof.
  intros Hwf. split; [now apply getRainTimes_total|].
  intros d i j Hij Honly. rewrite (getRainTimes_total host w Hwf).
  rewrite (filter_two _ Spec.isRainMatchb (fc_list (forecast w)) d i j Hij);
    [reflexivity|].
  intros k Hk. rewrite isRainMatchb_isRainMatch. now apply Honly.
Qed.

Lemma getRainTimes_matching_points_in_order_witness :
  getRainTimes DateTime.utc_host (Some Sample.w8)
  = Ok [rain_time DateTime.utc_host Sample.w8 (nth 1 Sample.eight_points Sample.w8_default);
        rain_time DateTime.utc_host Sample.w8 (nth 4 Sample.eight_points Sample.w8_default)].
Proof.
  apply (proj2 (getRainTimes_matching_points_in_order
                  DateTime.utc_host Sample.w8 eq_refl)
               Sample.w8_default 1 4).
  - simpl. lia.
  - intros k Hk. rewrite <- isRainMatchb_isRainMatch.
    do 8 (destruct k as [|k];
          [vm_compute; split; intros H; try discriminate; try reflexivity;
           try (destruct H; discriminate); auto|]).
    simpl in Hk. lia.
Defined.

(** C5.  On a well-formed response, the entries of [getRainTimes] pair
    with the rain-matching points in order, and the intensity of each
    entry is the rain volume of its point: equal to it as a Number when
    the point has one (and the very same value unless that is a zero), and
    0 when the point has no [rain] object or no ['3h'] in it.  A volume of
    2.3 gives the intensity 2.3. *)
Theorem intensity_is_rain_volume (host : DateTime.Host) (w : WeatherState) :
  Spec.well_formed w = true ->
  exists times,
    getRainTimes host (Some w) = Ok times
    /\ Forall2
         (fun item entry =>
            match Spec.rain_volume item with
            | Some volume =>
                (Num.isNaN volume = false ->
                 Num.eqb (intensity entry) volume = true)
                /\ (Num.truthy volume = true -> intensity entry = volume)
            | None => intensity entry = Num.ofZ 0
            end)
         (List.filter Spec.isRainMatchb (fc_list (forecast w)))
         times.
Proof.
  intros Hwf. eexists. split; [now apply getRainTimes_total|].
  induction (List.filter Spec.isRainMatchb (fc_list (forecast w)))
    as [|item rest IH]; simpl; constructor; [|exact IH].
  apply intensity_of_volume.
Qed.

Lemma intensity_is_rain_volume_witness :
  exists times,
    getRainTimes DateTime.macau_host (Some Sample.w8) = Ok times
    /\ List.map intensity times = [Num.decimal 23 1; Num.ofZ 0].
Proof.
  destruct (intensity_is_rain_volume DateTime.macau_host Sample.w8 eq_refl)
    as [times [Htimes _]].
  exists times. split; [exact Htimes|].
  vm_compute in Htimes. injection Htimes as <-. vm_compute. reflexivity.
Defined.

(** C10.  On a well-formed response, [willRain] is true exactly when the
    list of [getRainTimes] is not empty. *)
Theorem willRain_iff_rainTimes_nonempty (host : DateTime.Host) (w : WeatherState) :
  Spec.well_formed w = true ->
  exists wd,
    weatherData host (Some w) = Ok (Some wd)
    /\ getRainTimes host (Some w) = Ok (rainTimes wd)
    /\ (willRain wd = true <-> rainTimes wd <> []).
Proof.
  intros Hwf. destruct (weatherData_total host w Hwf) as [c [_ Hwd]].
  eexists. split; [exact Hwd|]. cbn [willRain rainTimes].
  split; [now apply getRainTimes_total|].
  rewrite existsb_filter.
  destruct (List.filter Spec.isRainMatchb (fc_list (forecast w)));
    simpl; split; congruence.
Qed.

Lemma willRain_iff_rainTimes_nonempty_witness :
  exists wd,
    weatherData DateTime.macau_host (Some Sample.w8) = Ok (Some wd)
    /\ getRainTimes DateTime.macau_host (Some Sample.w8) = Ok (rainTimes wd)
    /\ (willRain wd = true <-> rainTimes wd <> []).
Proof.
  apply (willRain_iff_rainTimes_nonempty DateTime.macau_host Sample.w8).
  reflexivity.
Defined.

(** ** Extreme weather *)

(** C7.  For current conditions whose first condition is [c], the flag
    [extremeWeather] is true exactly when [c.main] is "Extreme" or
    [c.description] contains, up to the case of its letters, one of
    "typhoon", "storm", "hurricane", "tornado", "severe". *)
Theorem extremeWeather_iff_extreme_or_keyword
        (w : WeatherState) (c : Condition) (rest : list Condition) :
  cur_weather (current w) = c :: rest ->
  exists flag,
    extremeWeather (Some w) = Ok flag
    /\ (flag = true
        <-> main c = "Extreme"
            \/ exists keyword,
                 In keyword Spec.extreme_keywords
                 /\ Str.ContainsIgnoringCase (description c) keyword).
Proof.
  intros Hc. unfold extremeWeather. rewrite Hc. cbn [weather0 Arr.at0 bind].
  destruct (String.eqb_spec (main c) "Extreme") as [Hmain | Hmain].
  - exists true. split; [reflexivity|]. split; [now left | reflexivity].
  - eexists. split; [reflexivity|].
    rewrite (test_ContainsIgnoringCase extreme_pattern eq_refl).
    change (RegExp.alternatives extreme_pattern) with Spec.extreme_keywords.
    split; [now right | intros [H | H]; [contradiction | exact H]].
Qed.

Lemma extremeWeather_iff_extreme_or_keyword_witness :
  exists flag,
    extremeWeather (Some Sample.w8) = Ok flag
    /\ (flag = true
        <-> "Clouds" = "Extreme"
            \/ exists keyword,
                 In keyword Spec.extreme_keywords
                 /\ Str.ContainsIgnoringCase "severe thunderstorm warning"
                                             keyword).
Proof.
  apply (extremeWeather_iff_extreme_or_keyword
           Sample.w8 (Sample.condition "Clouds" "severe thunderstorm warning")
           []).
  reflexivity.
Defined.

(** ** The description *)

(** C8, as amended.  For a description that is not empty, the text the
    component hands to the description element is the description with its
    first unit upper-cased ([toUpperCase], under which the sharp s becomes
    "SS") and all the later units as they are; "light rain" becomes
    "Light rain".  What the element displays is that text under its style
    [textTransform: 'capitalize'], as the platform capitalises it. *)
Theorem descriptionText_upper_cases_first_only
        (platform : Style.Platform) (wd : WeatherData)
        (first : ascii) (others : string) :
  wd_description wd = String first others ->
  descriptionText wd = (Str.upper_units first ++ Str.units others)%list
  /\ displayedDescription platform wd
     = Style.capitalize platform
         (Str.upper_units first ++ Str.units others)%list
  /\ (wd_description wd = "light rain" ->
      descriptionText wd = Str.units "Light rain").
Proof.
  intros Hd.
  assert (Htext : descriptionText wd
                  = (Str.upper_units first ++ Str.units others)%list).
  { unfold descriptionText. rewrite Hd. simpl. rewrite app_nil_r.
    destruct others; reflexivity. }
  split; [exact Htext|]. split.
  - unfold displayedDescription, Style.render_text. cbn [styles_description
      Style.textTransform]. now rewrite Htext.
  - intros H. rewrite H in Hd. injection Hd as <- <-.
    rewrite Htext. reflexivity.
Qed.

Lemma descriptionText_upper_cases_first_only_witness :
  descriptionText Sample.light_rain_summary = Str.units "Light rain".
Proof.
  exact (proj1 (descriptionText_upper_cases_first_only
                  Style.native Sample.light_rain_summary
                  "l"%char "ight rain" eq_refl)).
Defined.

(** C8 as the specification has it fails on what is displayed: under
    [styles.description] the later words are capitalised too, and
    "light rain" is displayed as "Light Rain". *)
Lemma displayed_description_capitalises_every_word :
  displayedDescription Style.native Sample.light_rain_summary
  = Str.units "Light Rain"
  /\ displayedDescription Style.native Sample.light_rain_summary
     <> Str.units "Light rain".
Proof. split; [reflexivity | discriminate]. Qed.

(** A description that starts with the sharp s (unit 223) gets the two
    units of "SS" in its place. *)
Example descriptionText_sharp_s (wd : WeatherData) (others : string) :
  wd_description wd = String (ascii_of_N 223) others ->
  descriptionText wd = (83 :: 83 :: Str.units others)%N.
Proof.
  intros Hd. unfold descriptionText. rewrite Hd. simpl.
  destruct others; reflexivity.
Qed.

(** ** The input guard *)

(** C9.  When [city] consists of white space only (the empty string
    included), [fetchWeather] sets the message "Please enter a city",
    changes nothing else and issues no request.  When [city] has a unit
    that is not white space, the guard does not fire: the first request
    is issued for that city, and the message that remains is not the one
    of the guard. *)
Theorem fetchWeather_guards_blank_city
        (API_KEY : string) (gw : Gateway) (st : State) :
  (Str.all_whitespace (city st) = true ->
   fetchWeather API_KEY gw st = (setError st PleaseEnterCity, []))
  /\ (Str.all_whitespace (city st) = false ->
      exists st' later,
        fetchWeather API_KEY gw st
        = (st', weather_url API_KEY (city st) :: later)
        /\ error st' <> PleaseEnterCity).
Proof.
  unfold fetchWeather. rewrite trim_empty, negb_involutive. split; intros Hws;
    rewrite Hws.
  - reflexivity.
  - destruct (get_weather gw _) as [response|].
    + destruct (get_forecast gw _) as [fc|];
        eexists; eexists; (split; [reflexivity | discriminate]).
    + eexists; eexists; (split; [reflexivity | discriminate]).
Qed.

Lemma fetchWeather_guards_blank_city_witness :
  fetchWeather "key" Sample.offline (Sample.idle "   ")
  = (setError (Sample.idle "   ") PleaseEnterCity, [])
  /\ fetchWeather "key" Sample.offline (Sample.idle "")
     = (setError (Sample.idle "") PleaseEnterCity, [])
  /\ exists st' later,
       fetchWeather "key" Sample.offline (Sample.idle " Macau")
       = (st', weather_url "key" " Macau" :: later)
       /\ error st' <> PleaseEnterCity.
Proof.
  split; [|split].
  - apply (proj1 (fetchWeather_guards_blank_city
                    "key" Sample.offline (Sample.idle "   "))).
    reflexivity.
  - apply (proj1 (fetchWeather_guards_blank_city
                    "key" Sample.offline (Sample.idle ""))).
    reflexivity.
  - apply (proj2 (fetchWeather_guards_blank_city
                    "key" Sample.offline (Sample.idle " Macau"))).
    reflexivity.
Defined.

End Claims.

(* ================================================================== *)
(** * Further properties of the component *)

(** ** [fetchWeather] beyond the guard *)
Section FetchFacts.

Import Api App.
Local Open Scope string_scope.

Lemma guard_passes (st : State) :
  Str.all_whitespace (city st) = false ->
  negb (Str.truthy (Str.trim (city st))) = false.
Proof. intros Hws. now rewrite trim_empty, Hws. Qed.

Lemma guard_fires (st : State) :
  Str.all_whitespace (city st) = true ->
  negb (Str.truthy (Str.trim (city st))) = true.
Proof. intros Hws. now rewrite trim_empty, Hws. Qed.

(** When the city is not blank and one of the two requests is rejected,
    the search ends with the message "City not found" and [loading]
    cleared, and the weather shown before stays in place. *)
Theorem fetchWeather_rejected_keeps_weather
        (API_KEY : string) (gw : Gateway) (st : State) :
  Str.all_whitespace (city st) = false ->
  get_weather gw (weather_url API_KEY (city st)) = None
  \/ get_forecast gw (forecast_url API_KEY (city st)) = None ->
  fst (fetchWeather API_KEY gw st)
  = {| city := city st; weather := weather st;
       loading := false; error := CityNotFound |}.
Proof.
  intros Hws Hrej. unfold fetchWeather. rewrite (guard_passes st Hws).
  destruct (get_weather gw _) as [response|]; [|reflexivity].
  destruct (get_forecast gw _) as [fc|]; [|reflexivity].
  destruct Hrej; discriminate.
Qed.

Lemma fetchWeather_rejected_keeps_weather_witness :
  fst (fetchWeather "key" Sample.forecast_down (Sample.showing "Atlantis"))
  = {| city := "Atlantis"; weather := Some Sample.w8;
       loading := false; error := CityNotFound |}.
Proof.
  apply (fetchWeather_rejected_keeps_weather
           "key" Sample.forecast_down (Sample.showing "Atlantis")).
  - reflexivity.
  - right. reflexivity.
Defined.

(** When the city is not blank and both requests succeed, the search ends
    with the two responses stored, the offset taken from the forecast's
    city, the message cleared and [loading] cleared; the weather request
    went out first, the forecast request second. *)
Theorem fetchWeather_stores_both_responses
        (API_KEY : string) (gw : Gateway) (st : State)
        (response : CurrentResponse) (fc : ForecastResponse) :
  Str.all_whitespace (city st) = false ->
  get_weather gw (weather_url API_KEY (city st)) = Some response ->
  get_forecast gw (forecast_url API_KEY (city st)) = Some fc ->
  fetchWeather API_KEY gw st
  = ({| city := city st;
        weather := Some {| current := response; forecast := fc;
                           timezoneOffset := timezone (fc_city fc) |};
        loading := false;
        error := NoMessage |},
     [weather_url API_KEY (city st); forecast_url API_KEY (city st)]).
Proof.
  intros Hws Hcur Hfc. unfold fetchWeather.
  rewrite (guard_passes st Hws), Hcur, Hfc. reflexivity.
Qed.

Lemma fetchWeather_stores_both_responses_witness :
  fetchWeather "key" Sample.online (Sample.idle "Macau")
  = ({| city := "Macau"; weather := Some Sample.w8;
        loading := false; error := NoMessage |},
     [weather_url "key" "Macau"; forecast_url "key" "Macau"]).
Proof.
  apply (fetchWeather_stores_both_responses
           "key" Sample.online (Sample.idle "Macau") Sample.current_clouds
           {| fc_list := Sample.eight_points; fc_city := Sample.macau |});
    reflexivity.
Defined.

(** The requests of a search are none (blank city), the weather request
    alone (it was rejected), or the weather request followed by the
    forecast request (it succeeded): the forecast is never requested
    first, alone, or after a rejected weather request. *)
Theorem fetchWeather_request_order
        (API_KEY : string) (gw : Gateway) (st : State) :
  let requests := snd (fetchWeather API_KEY gw st) in
  (Str.all_whitespace (city st) = true /\ requests = [])
  \/ (Str.all_whitespace (city st) = false
      /\ get_weather gw (weather_url API_KEY (city st)) = None
      /\ requests = [weather_url API_KEY (city st)])
  \/ (Str.all_whitespace (city st) = false
      /\ get_weather gw (weather_url API_KEY (city st)) <> None
      /\ requests = [weather_url API_KEY (city st);
                     forecast_url API_KEY (city st)]).
Proof.
  cbv zeta. unfold fetchWeather.
  destruct (Str.all_whitespace (city st)) eqn:Hws.
  - rewrite (guard_fires st Hws). left. split; reflexivity.
  - rewrite (guard_passes st Hws). right.
    destruct (get_weather gw _) as [response|] eqn:Hcur.
    + right. repeat split; [discriminate|].
      destruct (get_forecast gw _); reflexivity.
    + left. repeat split.
Qed.

(** Searching again with nothing changed (same city, same answers of the
    gateway) leaves the state as the first search left it and issues the
    same requests. *)
Theorem fetchWeather_idempotent
        (API_KEY : string) (gw : Gateway) (st : State) :
  fetchWeather API_KEY gw (fst (fetchWeather API_KEY gw st))
  = fetchWeather API_KEY gw st.
Proof.
  unfold fetchWeather.
  destruct (negb (Str.truthy (Str.trim (city st)))) eqn:Hguard.
  - cbn [fst setError city]. rewrite Hguard. reflexivity.
  - destruct (get_weather gw (weather_url API_KEY (city st)))
      as [response|] eqn:Hcur.
    + destruct (get_forecast gw (forecast_url API_KEY (city st)))
        as [fc|] eqn:Hfc;
        cbn [fst setError setLoading setWeather city];
        rewrite Hguard, Hcur, Hfc; reflexivity.
    + cbn [fst setError setLoading setWeather city].
      rewrite Hguard, Hcur. reflexivity.
Qed.

End FetchFacts.

(** ** [getLocalTime] on any host *)
Section LocalTimeFacts.

Import App.
Local Open Scope Z_scope.

Lemma new_Date_in_range (value : Z) :
  Z.abs value <= 8640000000000000 ->
  DateTime.new_Date value = Some value.
Proof.
  intros Hrange. unfold DateTime.new_Date, DateTime.TimeClip.
  destruct (Z.ltb_spec 8640000000000000 (Z.abs value)); [lia | reflexivity].
Qed.

Lemma HourFromTime_days (t k : Z) :
  DateTime.HourFromTime (t + 86400000 * k) = DateTime.HourFromTime t.
Proof.
  unfold DateTime.HourFromTime, DateTime.msPerHour.
  replace (t + 86400000 * k) with (t + (24 * k) * 3600000) by lia.
  rewrite Z.div_add by lia. now rewrite Z.add_mod, Z.mul_comm, Z.mod_mul,
    Z.add_0_r, Z.mod_mod by lia.
Qed.

Lemma MinFromTime_days (t k : Z) :
  DateTime.MinFromTime (t + 86400000 * k) = DateTime.MinFromTime t.
Proof.
  unfold DateTime.MinFromTime, DateTime.msPerMinute.
  replace (t + 86400000 * k) with (t + (24 * k * 60) * 60000) by lia.
  rewrite Z.div_add by lia.
  replace (24 * k * 60) with ((24 * k) * 60) by lia.
  now rewrite Z.add_mod, Z.mod_mul, Z.add_0_r, Z.mod_mod by lia.
Qed.

(** A sum of timestamp and offset more than 8 640 000 000 000 seconds
    away from the epoch is no valid date: the text is "Invalid Date" on
    every host. *)
Theorem getLocalTime_out_of_range
        (host : DateTime.Host) (timestamp timezoneOffset : Z) :
  8640000000000 < Z.abs (timestamp + timezoneOffset) ->
  getLocalTime host timestamp timezoneOffset = "Invalid Date"%string.
Proof.
  intros Hfar. unfold getLocalTime, DateTime.new_Date, DateTime.TimeClip.
  destruct (Z.ltb_spec 8640000000000000
                       (Z.abs ((timestamp + timezoneOffset) * 1000)));
    [reflexivity | lia].
Qed.

Lemma getLocalTime_out_of_range_witness :
  getLocalTime DateTime.utc_host 8640000000000 1 = "Invalid Date"%string.
Proof.
  apply (getLocalTime_out_of_range DateTime.utc_host 8640000000000 1).
  simpl. lia.
Defined.

(** Within that range the locale is always handed an hour from 0 to 23
    and a minute from 0 to 59, also for instants before the epoch. *)
Theorem getLocalTime_hour_minute_bounds
        (host : DateTime.Host) (timestamp timezoneOffset : Z) :
  Z.abs (timestamp + timezoneOffset) <= 8640000000000 ->
  exists hour minute,
    0 <= hour < 24 /\ 0 <= minute < 60
    /\ getLocalTime host timestamp timezoneOffset
       = DateTime.formatHourMinute host hour minute.
Proof.
  intros Hrange. unfold getLocalTime.
  rewrite new_Date_in_range by lia. cbn [DateTime.toLocaleTimeString].
  eexists; eexists. split; [|split; [|reflexivity]].
  - unfold DateTime.HourFromTime. apply Z.mod_pos_bound. lia.
  - unfold DateTime.MinFromTime. apply Z.mod_pos_bound. lia.
Qed.

Lemma getLocalTime_hour_minute_bounds_witness :
  exists hour minute,
    0 <= hour < 24 /\ 0 <= minute < 60
    /\ getLocalTime DateTime.macau_host (-60) 0
       = DateTime.formatHourMinute DateTime.macau_host hour minute.
Proof.
  apply (getLocalTime_hour_minute_bounds DateTime.macau_host (-60) 0).
  simpl. lia.
Defined.

(** The text is a time of day: timestamps a whole number of days apart
    give the same text, when the host's zone offset is the same at both. *)
Theorem getLocalTime_daily
        (host : DateTime.Host) (timestamp timezoneOffset days : Z) :
  Z.abs (timestamp + timezoneOffset) <= 8640000000000 ->
  Z.abs (timestamp + 86400 * days + timezoneOffset) <= 8640000000000 ->
  DateTime.LocalTZA host ((timestamp + 86400 * days + timezoneOffset) * 1000)
  = DateTime.LocalTZA host ((timestamp + timezoneOffset) * 1000) ->
  getLocalTime host (timestamp + 86400 * days) timezoneOffset
  = getLocalTime host timestamp timezoneOffset.
Proof.
  intros Hr1 Hr2 Hzone. unfold getLocalTime.
  rewrite !new_Date_in_range by lia. cbn [DateTime.toLocaleTimeString].
  unfold DateTime.LocalTime. rewrite Hzone.
  replace ((timestamp + 86400 * days + timezoneOffset) * 1000
           + DateTime.LocalTZA host ((timestamp + timezoneOffset) * 1000))
    with ((timestamp + timezoneOffset) * 1000
          + DateTime.LocalTZA host ((timestamp + timezoneOffset) * 1000)
          + 86400000 * days) by lia.
  now rewrite HourFromTime_days, MinFromTime_days.
Qed.

Lemma getLocalTime_daily_witness :
  getLocalTime DateTime.macau_host (10800 + 86400 * 3) 28800
  = getLocalTime DateTime.macau_host 10800 28800.
Proof.
  apply (getLocalTime_daily DateTime.macau_host 10800 28800 3).
  - simpl. lia.
  - simpl. lia.
  - reflexivity.
Defined.

(** A host whose zone is [zone] seconds east of UTC renders what a host on
    UTC renders for the offset [timezoneOffset + zone]: the zone of the
    device is added to the offset of the city. *)
Theorem getLocalTime_adds_host_zone
        (format : Z -> Z -> string) (zone timestamp timezoneOffset : Z) :
  Z.abs (timestamp + timezoneOffset) <= 8640000000000 ->
  Z.abs (timestamp + (timezoneOffset + zone)) <= 8640000000000 ->
  getLocalTime {| DateTime.LocalTZA := fun _ => zone * 1000;
                  DateTime.formatHourMinute := format |}
               timestamp timezoneOffset
  = getLocalTime {| DateTime.LocalTZA := fun _ => 0;
                    DateTime.formatHourMinute := format |}
                 timestamp (timezoneOffset + zone).
Proof.
  intros Hr1 Hr2. unfold getLocalTime.
  rewrite !new_Date_in_range by lia.
  cbn [DateTime.toLocaleTimeString DateTime.LocalTime DateTime.LocalTZA
       DateTime.formatHourMinute].
  unfold DateTime.LocalTime. cbn [DateTime.LocalTZA].
  replace ((timestamp + timezoneOffset) * 1000 + zone * 1000)
    with ((timestamp + (timezoneOffset + zone)) * 1000 + 0) by lia.
  reflexivity.
Qed.

Lemma getLocalTime_adds_host_zone_witness :
  getLocalTime DateTime.macau_host 10800 28800
  = getLocalTime DateTime.utc_host 10800 (28800 + 28800).
Proof.
  apply (getLocalTime_adds_host_zone DateTime.format24 28800 10800 28800);
    simpl; lia.
Defined.

End LocalTimeFacts.

(** ** Exceptions and NaN in the derivations *)
Section DerivationFacts.

Import Api App.
Local Open Scope string_scope.

Lemma mentions_rain_throws_iff (item : ForecastItem) :
  mentions_rain item = Throw TypeError <-> item_weather item = [].
Proof.
  unfold mentions_rain, weather0.
  destruct (item_weather item) as [|c rest]; simpl.
  - tauto.
  - destruct (Str.includes (Str.toLowerCase (main c)) "rain");
      split; discriminate.
Qed.

Lemma filter_loop_throws (A : Type) (callback : A -> result bool)
      (arr kept : list A) :
  (exists x, In x arr /\ callback x = Throw TypeError) ->
  Arr.filter_loop callback kept arr = Throw TypeError.
Proof.
  revert kept; induction arr as [|y rest IH]; intros kept [x [Hin Hx]].
  - destruct Hin.
  - simpl. destruct (callback y) as [b|[]] eqn:Hy; [|reflexivity]. simpl.
    apply IH. destruct Hin as [<- | Hin]; [congruence | now exists x].
Qed.

Lemma has_condition_false (weather : list Condition) :
  Spec.has_condition weather = false <-> weather = [].
Proof. destruct weather; simpl; split; congruence. Qed.

Lemma getRainTimes_throws (host : DateTime.Host) (w : WeatherState) :
  (exists item, In item (fc_list (forecast w)) /\ item_weather item = []) ->
  getRainTimes host (Some w) = Throw TypeError.
Proof.
  intros [item [Hin Hbare]]. unfold getRainTimes, Arr.filter.
  rewrite filter_loop_throws; [reflexivity|].
  exists item. split; [exact Hin | now apply mentions_rain_throws_iff].
Qed.

Lemma bare_point_exists (w : WeatherState) :
  forallb (fun item => Spec.has_condition (item_weather item))
          (fc_list (forecast w)) = false ->
  exists item, In item (fc_list (forecast w)) /\ item_weather item = [].
Proof.
  induction (fc_list (forecast w)) as [|x rest IH]; simpl; [discriminate|].
  rewrite andb_false_iff. intros [Hx | Hrest].
  - exists x. split; [now left | now apply has_condition_false].
  - destruct (IH Hrest) as [item [Hin Hbare]]. exists item. split;
      [now right | exact Hbare].
Qed.

(** [getRainTimes] throws a [TypeError] exactly when some forecast point
    has an empty [weather] array, wherever the point stands in the list and
    whether or not another point mentions rain. *)
Theorem getRainTimes_throws_iff_bare_point
        (host : DateTime.Host) (w : WeatherState) :
  getRainTimes host (Some w) = Throw TypeError
  <-> exists item, In item (fc_list (forecast w)) /\ item_weather item = [].
Proof.
  split; [|apply getRainTimes_throws].
  intros Hthrow.
  destruct (forallb (fun item => Spec.has_condition (item_weather item))
                    (fc_list (forecast w))) eqn:Hall;
    [|now apply bare_point_exists].
  unfold getRainTimes in Hthrow.
  rewrite (filter_total _ mentions_rain Spec.isRainMatchb) in Hthrow.
  - simpl in Hthrow. rewrite map_total in Hthrow. discriminate.
  - rewrite forallb_forall in Hall. intros x Hx.
    now apply mentions_rain_total, Hall.
Qed.

(** [weatherData] throws a [TypeError] exactly on the responses that are
    not well formed: the current conditions or some forecast point have an
    empty [weather] array.  On all others it returns a summary. *)
Theorem weatherData_throws_iff_not_well_formed
        (host : DateTime.Host) (w : WeatherState) :
  weatherData host (Some w) = Throw TypeError <-> Spec.well_formed w = false.
Proof.
  split.
  - intros Hthrow. destruct (Spec.well_formed w) eqn:Hwf; [|reflexivity].
    destruct (weatherData_total host w Hwf) as [c [_ Hwd]]. congruence.
  - unfold Spec.well_formed. rewrite andb_false_iff. intros [Hcur | Hitems].
    + apply has_condition_false in Hcur. unfold weatherData.
      rewrite Hcur. reflexivity.
    + pose proof (getRainTimes_throws host w (bare_point_exists w Hitems))
        as Htimes.
      unfold weatherData.
      destruct (weather0 (cur_weather (current w))) as [c|[]];
        [|reflexivity].
      cbn [bind].
      destruct (Arr.some mentions_rain (fc_list (forecast w))) as [b|[]];
        [|reflexivity].
      cbn [bind]. rewrite Htimes. reflexivity.
Qed.

Lemma min_loop_NaN (args : list Num.Number) (lowest : Num.Number) :
  Exists (fun x => Num.isNaN x = true) args ->
  Num.min_loop lowest args = Num.nan.
Proof.
  intros Hnan; revert lowest.
  induction Hnan as [x rest Hx | x rest _ IH]; intros lowest; simpl.
  - now rewrite Hx.
  - destruct (Num.isNaN x); [reflexivity | apply IH].
Qed.

Lemma max_loop_NaN (args : list Num.Number) (highest : Num.Number) :
  Exists (fun x => Num.isNaN x = true) args ->
  Num.max_loop highest args = Num.nan.
Proof.
  intros Hnan; revert highest.
  induction Hnan as [x rest Hx | x rest _ IH]; intros highest; simpl.
  - now rewrite Hx.
  - destruct (Num.isNaN x); [reflexivity | apply IH].
Qed.

Lemma add_NaN_l (x : Num.Number) : Num.add Num.nan x = Num.nan.
Proof. reflexivity. Qed.

Lemma add_NaN_r (x : Num.Number) : Num.add x Num.nan = Num.nan.
Proof. destruct x as [[|]|[|]| |[|] m e]; reflexivity. Qed.

Lemma isNaN_nan (x : Num.Number) : Num.isNaN x = true -> x = Num.nan.
Proof. destruct x; simpl; intros H; try discriminate; reflexivity. Qed.

Lemma sum_NaN (args : list Num.Number) (sum : Num.Number) :
  Exists (fun x => Num.isNaN x = true) args \/ sum = Num.nan ->
  fold_left Num.add args sum = Num.nan.
Proof.
  revert sum; induction args as [|x rest IH]; intros sum [Hnan | Hsum]; simpl.
  - inversion Hnan.
  - exact Hsum.
  - apply IH. inversion Hnan as [y l Hx | y l Hrest]; subst.
    + right. rewrite (isNaN_nan x Hx). apply add_NaN_r.
    + now left.
  - apply IH. right. subst sum. apply add_NaN_l.
Qed.

(** One forecast point whose temperature is NaN makes the three
    statistics NaN: the average, the minimum and the maximum. *)
Theorem NaN_temperature_spoils_statistics
        (host : DateTime.Host) (w : WeatherState) :
  Spec.well_formed w = true ->
  (exists item, In item (fc_list (forecast w))
                /\ Num.isNaN (temp (item_main item)) = true) ->
  exists wd,
    weatherData host (Some w) = Ok (Some wd)
    /\ avgTemp wd = Num.nan
    /\ minTemp wd = Num.nan
    /\ maxTemp wd = Num.nan.
Proof.
  intros Hwf [item [Hin Hnan]].
  destruct (weatherData_total host w Hwf) as [c [_ Hwd]].
  eexists. split; [exact Hwd|]. cbn [avgTemp minTemp maxTemp].
  assert (Hex : Exists (fun x => Num.isNaN x = true) (Spec.temperatures w)).
  { apply Exists_exists. exists (temp (item_main item)). split; [|exact Hnan].
    unfold Spec.temperatures.
    exact (in_map (fun i => temp (item_main i)) _ item Hin). }
  repeat split.
  - unfold Spec.mean. rewrite sum_NaN by now left. reflexivity.
  - now apply min_loop_NaN.
  - now apply max_loop_NaN.
Qed.

Lemma NaN_temperature_spoils_statistics_witness :
  exists wd,
    weatherData DateTime.utc_host
      (Some (Sample.with_points (Sample.nan_point :: Sample.eight_points)))
    = Ok (Some wd)
    /\ avgTemp wd = Num.nan
    /\ minTemp wd = Num.nan
    /\ maxTemp wd = Num.nan.
Proof.
  apply (NaN_temperature_spoils_statistics DateTime.utc_host
           (Sample.with_points (Sample.nan_point :: Sample.eight_points))).
  - reflexivity.
  - exists Sample.nan_point. split; [now left | reflexivity].
Defined.

(** On a well-formed response with a non-empty forecast list and no NaN
    temperature, the minimum shown is at most the maximum shown. *)
Theorem minTemp_at_most_maxTemp (host : DateTime.Host) (w : WeatherState) :
  Spec.well_formed w = true ->
  fc_list (forecast w) <> [] ->
  Spec.no_NaN (Spec.temperatures w) = true ->
  exists wd,
    weatherData host (Some w) = Ok (Some wd)
    /\ Num.leb (minTemp wd) (maxTemp wd) = true.
Proof.
  intros Hwf Hne Hnum.
  destruct (weatherData_total host w Hwf) as [c [_ Hwd]].
  eexists. split; [exact Hwd|]. cbn [minTemp maxTemp].
  assert (Hne' : Spec.temperatures w <> []).
  { unfold Spec.temperatures. destruct (fc_list (forecast w));
      [congruence | discriminate]. }
  destruct (Math_min_minimum _ Hne' Hnum) as [Hin Hmin].
  destruct (Math_max_maximum _ Hne' Hnum) as [_ Hmax].
  eapply leb_trans; [apply Hmin, Hin | apply Hmax, Hin].
Qed.

Lemma minTemp_at_most_maxTemp_witness :
  exists wd,
    weatherData DateTime.utc_host (Some Sample.w8) = Ok (Some wd)
    /\ Num.leb (minTemp wd) (maxTemp wd) = true.
Proof.
  apply (minTemp_at_most_maxTemp DateTime.utc_host Sample.w8).
  - reflexivity.
  - discriminate.
  - reflexivity.
Defined.

(** The intensity of an entry is never NaN and never the negative zero:
    it is the rain volume of the point, or +0. *)
Theorem intensity_never_NaN (item : ForecastItem) :
  Num.isNaN (intensity_of item) = false
  /\ Num.is_neg_zero (intensity_of item) = false
  /\ (intensity_of item = Num.pos_zero
      \/ Spec.rain_volume item = Some (intensity_of item)).
Proof.
  unfold intensity_of, Spec.rain_volume.
  destruct (item_rain item) as [[[volume|]]|]; cbn [rain_3h];
    try (repeat split; now left).
  destruct volume as [[|]|[|]| |[|] m e]; cbn [Num.truthy];
    repeat split; try (now left); now right.
Qed.

End DerivationFacts.

(** ** The alert, the title emoji and the rain grid *)
Section ViewFacts.

Import Api App View.
Local Open Scope string_scope.

(** Units with the same lower-case form have the same upper-case form:
    checked on the 65536 pairs. *)
Lemma same_lower_same_upper (a b : ascii) :
  Str.lower_unit a = Str.lower_unit b -> Str.upper_units a = Str.upper_units b.
Proof.
  assert (Hall : forallb (fun x => forallb (fun y =>
                   implb (Str.same_lower x y) (Str.same_upper x y))
                   Str.all_units) Str.all_units = true)
    by (vm_compute; reflexivity).
  rewrite forallb_forall in Hall.
  specialize (Hall a (all_units_complete a)).
  rewrite forallb_forall in Hall.
  specialize (Hall b (all_units_complete b)).
  intros Hlow. unfold Str.same_lower, Str.same_upper in Hall.
  rewrite Hlow, Ascii.eqb_refl in Hall. simpl in Hall.
  destruct (list_eq_dec N.eq_dec (Str.upper_units a) (Str.upper_units b));
    [assumption | discriminate].
Qed.

Lemma toLowerCase_toUpperCase (s t : string) :
  Str.toLowerCase s = Str.toLowerCase t ->
  Str.toUpperCase s = Str.toUpperCase t.
Proof.
  revert t; induction s as [|a s IH]; intros [|b t] H; simpl in *;
    try discriminate; [reflexivity|].
  injection H as Hab Hst.
  now rewrite (same_lower_same_upper a b Hab), (IH t Hst).
Qed.

Lemma toUpperCase_append (a b : string) :
  Str.toUpperCase (a ++ b) = (Str.toUpperCase a ++ Str.toUpperCase b)%list.
Proof.
  induction a as [|x a IH]; simpl; [reflexivity|].
  now rewrite IH, app_assoc.
Qed.

Section UpToCase.

Variable rx : RegExp.regexp.
Hypothesis rx_i : RegExp.ignoreCase rx = true.

Lemma match_literal_up_to_case (pattern input input' : string) :
  Str.toLowerCase input = Str.toLowerCase input' ->
  RegExp.match_literal rx pattern input
  = RegExp.match_literal rx pattern input'.
Proof.
  revert input input'; induction pattern as [|p pattern IH];
    intros [|c input] [|c' input'] H; simpl in *;
    try discriminate; try reflexivity.
  injection H as Hc Hrest. unfold RegExp.Canonicalize. rewrite rx_i.
  change (N.eqb (Str.canonical_unit p) (Str.canonical_unit c))
    with (Str.same_canonical p c).
  change (N.eqb (Str.canonical_unit p) (Str.canonical_unit c'))
    with (Str.same_canonical p c').
  rewrite !same_canonical_same_lower. unfold Str.same_lower.
  now rewrite Hc, (IH input input' Hrest).
Qed.

Lemma test_up_to_case (input input' : string) :
  Str.toLowerCase input = Str.toLowerCase input' ->
  RegExp.test rx input = RegExp.test rx input'.
Proof.
  assert (Hhere : forall i i',
             Str.toLowerCase i = Str.toLowerCase i' ->
             RegExp.match_here rx i = RegExp.match_here rx i').
  { intros i i' H. unfold RegExp.match_here.
    induction (RegExp.alternatives rx) as [|alt alts IH]; simpl;
      [reflexivity|].
    now rewrite (match_literal_up_to_case alt i i' H), IH. }
  revert input'; induction input as [|c input IH]; intros [|c' input'] H;
    simpl in H; try discriminate.
  - reflexivity.
  - cbn [RegExp.test]. injection H as Hc Hrest.
    rewrite (IH input' Hrest). f_equal. apply Hhere. simpl.
    now rewrite Hc, Hrest.
Qed.

End UpToCase.

(** The flag [extremeWeather] depends on the description only up to the
    case of its letters: two responses whose first conditions have the same
    [main] and descriptions equal up to case get the same flag. *)
Theorem extremeWeather_up_to_case
        (w w' : WeatherState) (c c' : Condition) (rest rest' : list Condition) :
  cur_weather (current w) = c :: rest ->
  cur_weather (current w') = c' :: rest' ->
  main c = main c' ->
  Str.toLowerCase (description c) = Str.toLowerCase (description c') ->
  extremeWeather (Some w) = extremeWeather (Some w').
Proof.
  intros Hc Hc' Hmain Hdesc. unfold extremeWeather.
  rewrite Hc, Hc'. cbn [weather0 Arr.at0 bind]. rewrite Hmain.
  now rewrite (test_up_to_case extreme_pattern eq_refl _ _ Hdesc).
Qed.

Lemma extremeWeather_up_to_case_witness :
  extremeWeather (Some Sample.w8)
  = extremeWeather
      (Some {| current :=
                 {| cur_name := "Macau"; cur_dt := 0;
                    cur_main := Sample.block 17;
                    cur_weather :=
                      [Sample.condition "Clouds" "Severe THUNDERSTORM Warning"] |};
               forecast := forecast Sample.w8;
               timezoneOffset := 28800 |}).
Proof.
  apply (extremeWeather_up_to_case
           Sample.w8 _
           (Sample.condition "Clouds" "severe thunderstorm warning")
           (Sample.condition "Clouds" "Severe THUNDERSTORM Warning")
           [] []); reflexivity.
Defined.

(** When the alert is shown, its text is the description in upper case
    ([toUpperCase], under which the sharp s becomes "SS"), and either
    [main] is "Extreme" or the text contains one of the five keywords in
    upper case. *)
Theorem alertText_shows_keyword
        (w : WeatherState) (c : Condition) (rest : list Condition)
        (text : Str.wide) :
  cur_weather (current w) = c :: rest ->
  alertText (Some w) = Ok (Some text) ->
  text = Str.toUpperCase (description c)
  /\ (main c = "Extreme"
      \/ exists keyword,
           In keyword Spec.extreme_keywords
           /\ Str.ContainsWide text (Str.toUpperCase keyword)).
Proof.
  intros Hc. unfold alertText, extremeWeather.
  rewrite Hc. cbn [weather0 Arr.at0 bind].
  destruct (String.eqb_spec (main c) "Extreme") as [Hmain | Hmain];
    cbn [bind].
  - intros H. injection H as <-. split; [reflexivity | now left].
  - destruct (RegExp.test extreme_pattern (description c)) eqn:Htest;
      cbn [bind]; [|discriminate].
    intros H. injection H as <-. split; [reflexivity | right].
    apply (test_ContainsIgnoringCase extreme_pattern eq_refl) in Htest.
    destruct Htest as [keyword [Hin [before [mid [after [Hsplit Hmid]]]]]].
    exists keyword. split; [exact Hin|].
    exists (Str.toUpperCase before), (Str.toUpperCase after).
    rewrite Hsplit, !toUpperCase_append.
    now rewrite (toLowerCase_toUpperCase mid keyword Hmid).
Qed.

Lemma alertText_shows_keyword_witness :
  Str.units "SEVERE THUNDERSTORM WARNING"
  = Str.toUpperCase "severe thunderstorm warning"
  /\ ("Clouds" = "Extreme"
      \/ exists keyword,
           In keyword Spec.extreme_keywords
           /\ Str.ContainsWide (Str.units "SEVERE THUNDERSTORM WARNING")
                               (Str.toUpperCase keyword)).
Proof.
  apply (alertText_shows_keyword
           Sample.w8 (Sample.condition "Clouds" "severe thunderstorm warning")
           [] (Str.units "SEVERE THUNDERSTORM WARNING")); reflexivity.
Defined.

(** With the sharp s (unit 223) in the description the alert reads "SS"
    in its place: "straSSe storm" in upper case. *)
Example alertText_sharp_s :
  alertText
    (Some {| current :=
               {| cur_name := "Macau"; cur_dt := 0;
                  cur_main := Sample.block 17;
                  cur_weather :=
                    [Sample.condition
                       "Clouds"
                       ("stra" ++ String (ascii_of_N 223) "e storm")] |};
             forecast := forecast Sample.w8;
             timezoneOffset := 28800 |})
  = Ok (Some (Str.units "STRASSE STORM")).
Proof. reflexivity. Qed.

Lemma getWeatherEmoji_warning (weatherMain : string) :
  getWeatherEmoji weatherMain = WarningSign <-> weatherMain = "Extreme".
Proof.
  unfold getWeatherEmoji. split.
  - repeat match goal with
           | |- context [String.eqb weatherMain ?lit] =>
               destruct (String.eqb_spec weatherMain lit)
           end; intros H; try discriminate; assumption.
  - intros ->. reflexivity.
Qed.

(** The title carries the warning sign exactly when [main] is "Extreme",
    and then the alert is shown below it. *)
Theorem warning_emoji_comes_with_alert
        (w : WeatherState) (c : Condition) (rest : list Condition) :
  cur_weather (current w) = c :: rest ->
  (getWeatherEmoji (main c) = WarningSign <-> main c = "Extreme")
  /\ (getWeatherEmoji (main c) = WarningSign ->
      alertText (Some w) = Ok (Some (Str.toUpperCase (description c)))).
Proof.
  intros Hc. split; [apply getWeatherEmoji_warning|].
  intros Hemoji. apply getWeatherEmoji_warning in Hemoji.
  unfold alertText, extremeWeather. rewrite Hc. cbn [weather0 Arr.at0 bind].
  rewrite Hemoji. reflexivity.
Qed.

Lemma warning_emoji_comes_with_alert_witness :
  alertText (Some {| current := Sample.current_extreme;
                     forecast := forecast Sample.w8;
                     timezoneOffset := 28800 |})
  = Ok (Some (Str.units "GALE")).
Proof.
  apply (proj2 (warning_emoji_comes_with_alert
                  {| current := Sample.current_extreme;
                     forecast := forecast Sample.w8;
                     timezoneOffset := 28800 |}
                  (Sample.condition "Extreme" "gale") [] eq_refl)).
  reflexivity.
Defined.

(** Before any search has succeeded ([weather] is null) nothing throws:
    there is no summary, no rain time, no flag and no alert.  The pattern is
    then tested against the text "undefined", which has no keyword. *)
Theorem nothing_derived_without_weather (host : DateTime.Host) :
  weatherData host None = Ok None
  /\ getRainTimes host None = Ok []
  /\ extremeWeather None = Ok false
  /\ alertText None = Ok None.
Proof. repeat split. Qed.

End ViewFacts.

(** ** The cells of the rain grid *)
Section RainGridFacts.

Import Api App View.
Local Open Scope string_scope.

Lemma zero_not_below_falsy (volume : Num.Number) :
  Num.truthy volume = false -> Num.ltb (Num.ofZ 0) volume = false.
Proof. destruct volume as [[|]|[|]| |[|] m e]; simpl; intros H;
         try discriminate; reflexivity. Qed.

(** A cell of the grid carries the rain cloud alone exactly when the
    point has no rain volume or one that is not above zero (zero, negative
    or NaN); otherwise it carries the drop with the volume of the point
    printed by [toFixed (1)]. *)
Theorem rain_label_by_volume
        (NumberToString : Num.Number -> string) (host : DateTime.Host)
        (w : WeatherState) (item : ForecastItem) :
  match Spec.rain_volume item with
  | Some volume =>
      if Num.ltb (Num.ofZ 0) volume
      then cell_label (renderRainTime NumberToString (rain_time host w item))
           = VolumeLabel (toFixed1 NumberToString volume)
      else cell_label (renderRainTime NumberToString (rain_time host w item))
           = IconLabel
  | None =>
      cell_label (renderRainTime NumberToString (rain_time host w item))
      = IconLabel
  end.
Proof.
  unfold renderRainTime, rain_time. cbn [intensity cell_label].
  unfold intensity_of, Spec.rain_volume.
  destruct (item_rain item) as [[[volume|]]|]; cbn [rain_3h];
    try reflexivity.
  destruct (Num.truthy volume) eqn:Htruthy.
  - destruct (Num.ltb (Num.ofZ 0) volume); reflexivity.
  - rewrite (zero_not_below_falsy volume Htruthy). reflexivity.
Qed.

(** On a well-formed response the card shows the line without rain exactly
    when no forecast point matches the rain predicate; otherwise it shows
    the grid, which then has one cell per matching point, in order, and is
    never empty. *)
Theorem rainSection_grid_or_no_rain
        (NumberToString : Num.Number -> string) (host : DateTime.Host)
        (w : WeatherState) :
  Spec.well_formed w = true ->
  exists wd,
    weatherData host (Some w) = Ok (Some wd)
    /\ match rainSection NumberToString wd with
       | None =>
           forall item, In item (fc_list (forecast w)) ->
                        ~ Spec.isRainMatch item
       | Some cells =>
           cells <> []
           /\ cells
              = List.map (fun item =>
                            renderRainTime NumberToString (rain_time host w item))
                         (List.filter Spec.isRainMatchb (fc_list (forecast w)))
       end.
Proof.
  intros Hwf. destruct (weatherData_total host w Hwf) as [c [_ Hwd]].
  eexists. split; [exact Hwd|]. unfold rainSection. cbn [willRain rainTimes].
  destruct (existsb Spec.isRainMatchb (fc_list (forecast w))) eqn:Hrain.
  - rewrite map_map. split; [|reflexivity].
    apply existsb_filter in Hrain.
    destruct (List.filter Spec.isRainMatchb (fc_list (forecast w)));
      [congruence | discriminate].
  - intros item Hin Hmatch. apply isRainMatchb_isRainMatch in Hmatch.
    assert (Htrue : existsb Spec.isRainMatchb (fc_list (forecast w)) = true)
      by (apply existsb_exists; now exists item).
    congruence.
Qed.

Lemma rainSection_grid_or_no_rain_witness :
  exists wd,
    weatherData DateTime.macau_host (Some Sample.w8) = Ok (Some wd)
    /\ rainSection Sample.exponent_form wd
       = Some [ {| cell_time := "22:00"; cell_label := VolumeLabel "2.3" |};
                {| cell_time := "07:00"; cell_label := IconLabel |} ].
Proof.
  destruct (rainSection_grid_or_no_rain
              Sample.exponent_form DateTime.macau_host Sample.w8 eq_refl)
    as [wd [Hwd _]].
  exists wd. split; [exact Hwd|].
  vm_compute in Hwd. injection Hwd as <-. vm_compute. reflexivity.
Defined.

(** A volume above zero and below one twentieth of a millimetre is shown
    with the drop, as "0.0": the test is on the value, the text is
    rounded.  The volume is [m * 2^e]. *)
Theorem tiny_volume_shown_as_zero
        (NumberToString : Num.Number -> string) (t : string)
        (m : positive) (e : Z) :
  (e < 0)%Z ->
  (20 * Z.pos m < 2 ^ (- e))%Z ->
  renderRainTime NumberToString
                 {| time := t; intensity := S754_finite false m e |}
  = {| cell_time := t; cell_label := VolumeLabel "0.0" |}.
Proof.
  intros He Hsmall. unfold renderRainTime. cbn [time intensity].
  replace (Num.ltb (Num.ofZ 0) (S754_finite false m e)) with true
    by reflexivity.
  unfold toFixed1, beyond_fixed, tenths.
  destruct (Z.leb_spec 0 e) as [H0|_]; [lia|].
  assert (Hd : (0 < 2 ^ (- e))%Z) by (apply Z.pow_pos_nonneg; lia).
  set (d := (2 ^ (- e))%Z) in *.
  change (10 ^ 21)%Z with 1000000000000000000000%Z.
  destruct (Z.leb_spec (1000000000000000000000 * d) (Z.pos m)) as [Hbig|_];
    [lia|].
  rewrite (Z.div_small (20 * Z.pos m + d) (2 * d)) by lia.
  reflexivity.
Qed.

Lemma tiny_volume_shown_as_zero_witness :
  renderRainTime Sample.exponent_form
                 {| time := "07:00"; intensity := Num.decimal 4 2 |}
  = {| cell_time := "07:00"; cell_label := VolumeLabel "0.0" |}.
Proof.
  apply (tiny_volume_shown_as_zero
           Sample.exponent_form "07:00" 5764607523034235 (-57)).
  - lia.
  - vm_compute. reflexivity.
Defined.

End RainGridFacts.
